(** * pydantic/_internal/_validate_call.py

    A shallow embedding of [ValidateCallWrapper], the call-validating
    wrapper and descriptor, together with the part of the Python object
    model its methods rely on (attribute lookup, method binding, object
    identity), and the properties of construction, calling, rebinding,
    equality and hashing.

    Python objects that are shared and mutated (wrappers, classes,
    instances) live in a store and are referred to by identity; values
    that are never mutated (functions, bound methods, partials) are
    carried by value and keep an identity field where Python compares
    them by identity. *)

From Stdlib Require Import ZArith Ascii.
From stdpp Require Import gmap strings list.

Set Warnings "-register-all".

(** ** Exceptions and results *)

Inductive exn :=
| AttributeError
| TypeError
| ValueError
| ValidationError
| SchemaError (what : string)
| SystemError
| Raised (tag : string).

Inductive result (A : Type) :=
| Return (a : A)
| Raise (e : exn).
Arguments Return {A} a.
Arguments Raise {A} e.

Definition rbind {A B} (r : result A) (k : A → result B) : result B :=
  match r with
  | Return a => k a
  | Raise e => Raise e
  end.

Declare Scope result_scope.
Delimit Scope result_scope with result.
Notation "'let!' x ':=' r 'in' k" := (rbind r (λ x, k))
  (at level 10, x name, r at level 100, k at level 200,
   format "'let!'  x  ':='  r  'in'  '//' k") : result_scope.

(** ** Python values *)

(** Function objects ([def] / [async def]).  [co_coroutine] is the code
    flag that [inspect.iscoroutinefunction] reads. *)
Module PyFunction.
Record t := {
    id : nat;
    __name__ : string;
    __qualname__ : string;
    __annotations__ : list (string * string);
    __module__ : string;
    __doc__ : option string;
    co_coroutine : bool;
  }.
End PyFunction.

(** Receiver of a bound method: an instance or a class. *)
Inductive receiver :=
| RInst (o : nat)
| RType (c : nat).

(** Bodies of core schemas are produced by the schema generator and read
    only by the validator engine; here they are tokens. *)
Abbreviation SchemaBody := nat (only parsing).
Abbreviation CoreConfig := nat (only parsing).
Abbreviation PluginSettings := nat (only parsing).
Abbreviation Namespace := nat (only parsing).

Inductive value :=
| VNone
| VBool (b : bool)
| VInt (z : Z)
| VStr (s : string)
| VType (c : nat)                 (* a class object, by identity *)
| VInst (o : nat)                 (* an instance, by identity *)
| VWrapper (r : nat)              (* a ValidateCallWrapper, by identity *)
| VCallable (c : callable)
| VArgsKwargs (args : list value) (kwargs : list (string * value))
| VCoroutine (k : coroutine)
with callable :=
| Function (f : PyFunction.t)
| Method (f : PyFunction.t) (self : receiver)
| Partial (id : nat) (func : callable)
          (args : list value) (keywords : list (string * value))
with coroutine :=
| CoCall (f : PyFunction.t) (args : list value) (kwargs : list (string * value))
| CoReturnVal (validator : SchemaValidator) (aw : value)
with CoreSchema :=
| CallSchema (arguments_schema : SchemaBody) (function : callable)
| ValueSchema (body : SchemaBody)
with SchemaValidator :=
| MkSchemaValidator (schema : CoreSchema) (schema_type : callable)
                    (module qualname kind : string)
                    (core_config : CoreConfig)
                    (plugin_settings : PluginSettings).

Definition validator_schema (v : SchemaValidator) : CoreSchema :=
  match v with MkSchemaValidator s _ _ _ _ _ _ => s end.
Definition validator_core_config (v : SchemaValidator) : CoreConfig :=
  match v with MkSchemaValidator _ _ _ _ _ c _ => c end.

(** ** Configuration *)

Inductive ConfigValue :=
| CBool (b : bool)
| CInt (z : Z)
| CStr (s : string).

(** [ConfigDict | None] *)
Abbreviation ConfigDict := (gmap string ConfigValue) (only parsing).
Abbreviation Config := (option (gmap string ConfigValue)) (only parsing).

(** ** Signatures *)

Inductive annotation :=
| Any
| Ann (text : string).

(** [return_annotation = None] stands for [Signature.empty]. *)
Record Signature := {
  parameters : list (string * option annotation);
  return_annotation : option annotation;
}.

(** ** The wrapper *)

(** The value of [__return_pydantic_validator__] when return validation is
    on: the bound method [validator.validate_python], or the closure
    [return_val_wrapper] over [validator]. *)
Inductive ReturnValidator :=
| validate_python_of (validator : SchemaValidator)
| return_val_wrapper (validator : SchemaValidator).

Record ValidateCallWrapper := {
  raw_function : callable;
  _config : Config;
  _validate_return : bool;
  __signature__ : Signature;
  __name__ : string;
  __qualname__ : string;
  __annotations__ : list (string * string);
  __module__ : string;
  __doc__ : option string;
  __pydantic_core_schema__ : CoreSchema;
  __pydantic_validator__ : SchemaValidator;
  __return_pydantic_core_schema__ : option CoreSchema;
  __return_pydantic_validator__ : option ReturnValidator;
  _name : option string;
}.

(** ** External collaborators

    The schema generator, the validator engine, signature introspection
    and the bodies of the wrapped callables are outside this module. *)

Class Externals := {
  (* inspect.signature *)
  inspect_signature : callable → result Signature;
  (* _typing_extra.add_module_globals(function, None) *)
  add_module_globals : callable → Namespace;
  (* GenerateSchema(config_wrapper, namespace): the arguments part of the
     schema of a callable, and the schema of a type *)
  generate_arguments_schema : Config → Namespace → callable → result SchemaBody;
  generate_type_schema : Config → Namespace → annotation → result SchemaBody;
  (* ConfigWrapper.core_config(obj), which reads obj.__name__ *)
  core_config_for : Config → string → CoreConfig;
  (* ConfigWrapper.plugin_settings *)
  plugin_settings_of : Config → PluginSettings;
  (* what the validator engine accepts, and what it coerces it to *)
  check_arguments : CoreConfig → SchemaBody → list value → list (string * value) →
                    option (list value * list (string * value));
  check_value : CoreConfig → SchemaBody → value → option value;
  (* the body of a function, run on its arguments *)
  run_body : PyFunction.t → list value → list (string * value) → result value;
  (* identity hashes of the host *)
  hash_function : nat → Z;
  hash_receiver : receiver → Z;
  hash_partial : nat → Z;
  (* what the metaclass serves for a class under a name, bound to the
     class: for a plain class the attributes of [type] and [object], such
     as [__init__], [__call__], [mro], [__eq__] or [__name__]; [None] when
     the metaclass has no attribute of that name, as for [__slots__] *)
  metaclass_attribute : nat → string → option value;
}.

(** ** Attributes of callables *)

Module Attr.
  (** [partial] objects expose [func], [args] and [keywords] but none of
      the identity attributes of a function; a bound method forwards them
      to its [__func__]. *)
Definition function_of (c : callable) : result PyFunction.t :=
    match c with
    | Function f => Return f
    | Method f _ => Return f
    | Partial _ _ _ _ => Raise AttributeError
    end.

Definition __name__ (c : callable) : result string :=
    (let! f := function_of c in Return (PyFunction.__name__ f))%result.
Definition __qualname__ (c : callable) : result string :=
    (let! f := function_of c in Return (PyFunction.__qualname__ f))%result.
Definition __annotations__ (c : callable) : result (list (string * string)) :=
    (let! f := function_of c in Return (PyFunction.__annotations__ f))%result.
Definition __module__ (c : callable) : result string :=
    (let! f := function_of c in Return (PyFunction.__module__ f))%result.
Definition __doc__ (c : callable) : result (option string) :=
    (let! f := function_of c in Return (PyFunction.__doc__ f))%result.
End Attr.

(** [isinstance(function, partial)] *)
Definition is_partial (c : callable) : bool :=
  match c with
  | Partial _ _ _ _ => true
  | _ => false
  end.

(** [inspect.iscoroutinefunction]: looks through bound methods and
    partials at the code flags of the underlying function. *)
Fixpoint iscoroutinefunction (c : callable) : bool :=
  match c with
  | Function f => PyFunction.co_coroutine f
  | Method f _ => PyFunction.co_coroutine f
  | Partial _ func _ _ => iscoroutinefunction func
  end.

Section Construction.
Context `{Externals}.

  (** [create_schema_validator(schema, schema_type, module, qualname,
    'validate_call', core_config, plugin_settings)]: the validator keeps
    what it was built from.  (The engine can refuse a schema; the schemas
    handed over here are the generator's own, and building a validator
    for them is taken to go through.) *)
Definition create_schema_validator (schema : CoreSchema) (schema_type : callable)
      (module qualname kind : string) (core_config : CoreConfig)
      (plugin_settings : PluginSettings) : SchemaValidator :=
    MkSchemaValidator schema schema_type module qualname kind core_config plugin_settings.

  (** Modelled from the spec: [GenerateSchema.generate_schema] applied to a
      callable, which is not among the sources.  The schema of a callable is
      a call schema: the arguments schema derived from the signature,
      paired with the callable that the validator runs once the arguments
      are accepted (spec 4.2 step 2 and 4.3 step 3). *)
Definition generate_schema_callable (config_wrapper : Config) (namespace : Namespace)
      (function : callable) : result CoreSchema :=
    (let! a := generate_arguments_schema config_wrapper namespace function in
     Return (CallSchema a function))%result.

  (** Modelled from the spec: [GenerateSchema.generate_schema] applied to
      the return annotation (spec 4.2 step 4). *)
Definition generate_schema_type (config_wrapper : Config) (namespace : Namespace)
      (tp : annotation) : result CoreSchema :=
    (let! b := generate_type_schema config_wrapper namespace tp in
     Return (ValueSchema b))%result.

  (** The identity fields chosen at lines 47-61: the schema target and the
      five attributes copied onto the wrapper. *)
Record Identity := {
    id_schema_type : callable;
    id_name : string;
    id_qualname : string;
    id_annotations : list (string * string);
    id_module : string;
    id_doc : option string;
  }.

Definition resolve_identity (function : callable) : result Identity :=
    match function with
    | Partial _ func _ _ =>
        (let! n := Attr.__name__ func in
         let! q := Attr.__qualname__ func in
         let! a := Attr.__annotations__ func in
         let! m := Attr.__module__ func in
         let! d := Attr.__doc__ func in
         Return {| id_schema_type := func;
                   id_name := "partial(" +:+ n +:+ ")";
                   id_qualname := "partial(" +:+ q +:+ ")";
                   id_annotations := a;
                   id_module := m;
                   id_doc := d |})%result
    | _ =>
        (let! n := Attr.__name__ function in
         let! q := Attr.__qualname__ function in
         let! a := Attr.__annotations__ function in
         let! m := Attr.__module__ function in
         let! d := Attr.__doc__ function in
         Return {| id_schema_type := function;
                   id_name := n;
                   id_qualname := q;
                   id_annotations := a;
                   id_module := m;
                   id_doc := d |})%result
    end.

  (** Lines 81-85: the declared return annotation, or [Any] when the
    signature has none. *)
Definition return_type_of (sig : Signature) : annotation :=
  match return_annotation sig with
  | Some a => a
  | None => Any
  end.

(** The return-validation part of the constructor, lines 80-108. *)
Definition build_return_validation (function : callable) (sig : Signature)
      (i : Identity) (config : Config) (namespace : Namespace)
      (core_config : CoreConfig) (validate_return : bool)
      : result (option CoreSchema * option ReturnValidator) :=
    if validate_return then
      let return_type := return_type_of sig in
      (let! schema := generate_schema_type config namespace return_type in
       let validator :=
         create_schema_validator schema (id_schema_type i) (id_module i)
           (id_qualname i) "validate_call" core_config (plugin_settings_of config) in
       Return (Some schema,
               Some (if iscoroutinefunction function
                     then return_val_wrapper validator
                     else validate_python_of validator)))%result
    else Return (None, None).

  (** [ValidateCallWrapper.__init__] *)
Definition __init__ (function : callable) (config : Config) (validate_return : bool)
      : result ValidateCallWrapper :=
    (let! sig := inspect_signature function in
     let! i := resolve_identity function in
     let namespace := add_module_globals function in
     let config_wrapper := config in
     let! schema := generate_schema_callable config_wrapper namespace function in
     let core_config := core_config_for config_wrapper (id_name i) in
     let validator :=
       create_schema_validator schema (id_schema_type i) (id_module i)
         (id_qualname i) "validate_call" core_config (plugin_settings_of config_wrapper) in
     let! rv := build_return_validation function sig i config_wrapper namespace
                  core_config validate_return in
     Return {| raw_function := function;
               _config := config;
               _validate_return := validate_return;
               __signature__ := sig;
               __name__ := id_name i;
               __qualname__ := id_qualname i;
               __annotations__ := id_annotations i;
               __module__ := id_module i;
               __doc__ := id_doc i;
               __pydantic_core_schema__ := schema;
               __pydantic_validator__ := validator;
               __return_pydantic_core_schema__ := fst rv;
               __return_pydantic_validator__ := snd rv;
               _name := None |})%result.

End Construction.

(** ** The store *)

(** Class objects.  [__mro__] lists the class itself first and leaves out
    [object]; [__dict__] is the class's own namespace. *)
Module PyType.
Record t := {
  __name__ : string;
  __mro__ : list nat;
  __dict__ : gmap string value;
}.
End PyType.

Module PyInstance.
Record t := {
  __class__ : nat;
  __dict__ : gmap string value;
}.
End PyInstance.

(** One run of the body of a function: what was called, on what. *)
Record Invocation := {
  inv_function : PyFunction.t;
  inv_args : list value;
  inv_kwargs : list (string * value);
}.

(** Wrappers are allocated at the end of [wrappers]: the identity of a
    wrapper is its index.  [invocations] logs the bodies that have run,
    the latest first. *)
Record World := {
  wrappers : list ValidateCallWrapper;
  types : gmap nat PyType.t;
  instances : gmap nat PyInstance.t;
  invocations : list Invocation;
}.

(** Computations that read and change the store and may raise. *)
Definition M (A : Type) : Type := World → World * result A.

Definition ret {A} (a : A) : M A := λ σ, (σ, Return a).
Definition raise {A} (e : exn) : M A := λ σ, (σ, Raise e).
Definition lift {A} (r : result A) : M A := λ σ, (σ, r).
Definition bind {A B} (c : M A) (k : A → M B) : M B :=
  λ σ, match c σ with
       | (σ', Return a) => k a σ'
       | (σ', Raise e) => (σ', Raise e)
       end.
Definition gets {A} (f : World → A) : M A := λ σ, (σ, Return (f σ)).
Definition modify (f : World → World) : M unit := λ σ, (f σ, Return tt).

Declare Scope py_scope.
Delimit Scope py_scope with py.
Notation "'let*' x ':=' c 'in' k" := (bind c (λ x, k))
  (at level 10, x name, c at level 100, k at level 200,
   format "'let*'  x  ':='  c  'in'  '//' k") : py_scope.
Open Scope py_scope.

(** ** Calling *)

Definition receiver_value (r : receiver) : value :=
  match r with
  | RInst o => VInst o
  | RType c => VType c
  end.

(** The value under a key of a keyword list. *)
Fixpoint keyword_lookup (kwargs : list (string * value)) (k : string) : option value :=
  match kwargs with
  | [] => None
  | (k', v) :: rest => if decide (k' = k) then Some v else keyword_lookup rest k
  end.

(** [{**keywords, **kwargs}]: the keys of [keywords] keep their places and
    take the value that [kwargs] gives them, if it gives one; the other
    keys of [kwargs] follow in their order. *)
Definition merge_keywords (keywords kwargs : list (string * value))
    : list (string * value) :=
  map (λ kv, (kv.1, default kv.2 (keyword_lookup kwargs kv.1))) keywords
  ++ filter (λ kv, kv.1 ∉ keywords.*1) kwargs.

Definition log_invocation (f : PyFunction.t) (args : list value)
    (kwargs : list (string * value)) (σ : World) : World :=
  {| wrappers := wrappers σ;
     types := types σ;
     instances := instances σ;
     invocations :=
       {| inv_function := f; inv_args := args; inv_kwargs := kwargs |}
       :: invocations σ |}.

Section Calling.
Context `{Externals}.

(** Running a body: it is logged, and yields what the body yields. *)
Definition execute (f : PyFunction.t) (args : list value)
    (kwargs : list (string * value)) : M value :=
  λ σ, (log_invocation f args kwargs σ, run_body f args kwargs).

(** Calling a function object.  Calling an [async def] function runs
    nothing: it yields the coroutine object. *)
Definition call_function (f : PyFunction.t) (args : list value)
    (kwargs : list (string * value)) : M value :=
  if PyFunction.co_coroutine f
  then ret (VCoroutine (CoCall f args kwargs))
  else execute f args kwargs.

Fixpoint call_callable (c : callable) (args : list value)
    (kwargs : list (string * value)) : M value :=
  match c with
  | Function f => call_function f args kwargs
  | Method f self => call_function f (receiver_value self :: args) kwargs
  | Partial _ func pargs keywords =>
      call_callable func (pargs ++ args) (merge_keywords keywords kwargs)
  end.

(** Modelled from the spec: [validate_python] of a validator made by
    [create_schema_validator], which is not among the sources (spec 4.3
    steps 2-3 and 6, "Validator.validate(value) -> value | raises
    ValidationError").  For a call schema the input is the argument
    bundle: it is checked against the arguments schema; on failure
    [ValidationError] is raised and the callable is not run; otherwise
    the callable is run on the coerced arguments and its result is the
    result.  For any other schema the value is checked and coerced. *)
Definition validate_python (v : SchemaValidator) (input : value) : M value :=
  match validator_schema v with
  | CallSchema a function =>
      match input with
      | VArgsKwargs args kwargs =>
          match check_arguments (validator_core_config v) a args kwargs with
          | Some (args', kwargs') => call_callable function args' kwargs'
          | None => raise ValidationError
          end
      | _ => raise ValidationError
      end
  | ValueSchema b =>
      match check_value (validator_core_config v) b input with
      | Some v' => ret v'
      | None => raise ValidationError
      end
  end.

(** [await k].  Awaiting the coroutine of [return_val_wrapper(aw)] runs
    line 101: [validator.validate_python(await aw)]. *)
Fixpoint await (k : coroutine) : M value :=
  match k with
  | CoCall f args kwargs => execute f args kwargs
  | CoReturnVal validator aw =>
      match aw with
      | VCoroutine k' =>
          let* r := await k' in
          validate_python validator r
      | _ => raise TypeError
      end
  end.

(** Calling what [__return_pydantic_validator__] holds. *)
Definition call_return_validator (rv : ReturnValidator) (res : value) : M value :=
  match rv with
  | validate_python_of validator => validate_python validator res
  | return_val_wrapper validator => ret (VCoroutine (CoReturnVal validator res))
  end.

(** [ValidateCallWrapper.__call__] *)
Definition __call__ (self : ValidateCallWrapper) (args : list value)
    (kwargs : list (string * value)) : M value :=
  let* res := validate_python (__pydantic_validator__ self) (VArgsKwargs args kwargs) in
  match __return_pydantic_validator__ self with
  | Some rv => call_return_validator rv res
  | None => ret res
  end.

(** What the argument validator of a wrapper makes of an argument bundle:
    [None] when the bundle violates the arguments schema. *)
Definition check_call (self : ValidateCallWrapper) (args : list value)
    (kwargs : list (string * value)) : option (list value * list (string * value)) :=
  match validator_schema (__pydantic_validator__ self) with
  | CallSchema a _ =>
      check_arguments (validator_core_config (__pydantic_validator__ self)) a args kwargs
  | ValueSchema _ => None
  end.

(** What a return validator makes of a value: [None] when the value
    violates the return schema. *)
Definition check_return (validator : SchemaValidator) (v : value) : option value :=
  match validator_schema validator with
  | ValueSchema b => check_value (validator_core_config validator) b v
  | CallSchema _ _ => None
  end.

End Calling.

(** ** Attribute access in the host object model *)

(** First hit for [name] in the namespaces of the classes of [mro]. *)
Fixpoint lookup_in_mro (ts : gmap nat PyType.t) (mro : list nat) (name : string)
    : option value :=
  match mro with
  | [] => None
  | c :: rest =>
      match ts !! c ≫= (λ t, PyType.__dict__ t !! name) with
      | Some v => Some v
      | None => lookup_in_mro ts rest name
      end
  end.

Definition mro_lookup (σ : World) (c : nat) (name : string) : option value :=
  t ← types σ !! c; lookup_in_mro (types σ) (PyType.__mro__ t) name.

(** [hasattr(objtype, name)] for a class: a hit along the MRO or, failing
    that, an attribute that the metaclass serves; and [hasattr(obj, name)]
    for an instance or [None]. *)
Definition type_hasattr `{Externals} (σ : World) (objtype : nat) (name : string) : bool :=
  bool_decide (is_Some (mro_lookup σ objtype name))
  || bool_decide (is_Some (metaclass_attribute objtype name)).

Definition obj_hasattr (σ : World) (obj : option nat) (name : string) : bool :=
  match obj with
  | None => false
  | Some o =>
      match instances σ !! o with
      | Some i =>
          bool_decide (is_Some (PyInstance.__dict__ i !! name))
          || bool_decide (is_Some (mro_lookup σ (PyInstance.__class__ i) name))
      | None => false
      end
  end.

(** [objtype.__getattribute__(objtype, name)] inside [try ... except
    AttributeError: pass].  The function found on the class is
    [object.__getattribute__]; applied to the class object itself it treats
    the class as an instance of its metaclass: it reads the class's own
    [__dict__], binding nothing, and failing that serves what the metaclass
    has under the name.  [None] is the [AttributeError] that the handler
    swallows.  (The host asks the metaclass first for the names under which
    [type] has a data descriptor, [__name__], [__dict__] and the like; the
    namespaces of the model hold what a class body binds, and no entry
    under such a name.) *)
Definition type_own_attribute `{Externals} (objtype : nat) (name : string)
    : M (option value) :=
  λ σ, match types σ !! objtype with
       | Some t =>
           (σ, Return (match PyType.__dict__ t !! name with
                       | Some v => Some v
                       | None => metaclass_attribute objtype name
                       end))
       | None => (σ, Raise SystemError)
       end.

(** [object.__setattr__(obj, name, v)] on an instance: a write to the
    instance's [__dict__]. *)
Definition set_instances (f : gmap nat PyInstance.t → gmap nat PyInstance.t)
    (σ : World) : World :=
  {| wrappers := wrappers σ;
     types := types σ;
     instances := f (instances σ);
     invocations := invocations σ |}.

Definition object_setattr_instance (o : nat) (name : string) (v : value) : M unit :=
  λ σ, match instances σ !! o with
       | Some i =>
           (set_instances
              (insert o {| PyInstance.__class__ := PyInstance.__class__ i;
                           PyInstance.__dict__ := <[name := v]> (PyInstance.__dict__ i) |}) σ,
            Return tt)
       | None => (σ, Raise SystemError)
       end.

(** [object.__setattr__(objtype, name, v)] on a class object.  The slot
    wrapper of [object.__setattr__] refuses receivers whose type has its own
    C-level [__setattr__], as [type] has: CPython raises [TypeError: can't
    apply this __setattr__ to type object].  Nothing is written. *)
Definition object_setattr_type (objtype : nat) (name : string) (v : value) : M unit :=
  raise TypeError.

(** [raw_function.__get__(obj, objtype)].  A function binds to an instance
    and is itself at class level.  A bound method has no [__get__] of its
    own and forwards the lookup to its function, so it is the function
    that binds: to the new instance, dropping the old receiver, or to
    nothing at class level.  A [partial] object has no [__get__]. *)
Definition bind_function (f : PyFunction.t) (obj : option nat) : callable :=
  match obj with
  | None => Function f
  | Some o => Method f (RInst o)
  end.

Definition descr_get (c : callable) (obj : option nat) (objtype : nat) : result callable :=
  match c with
  | Function f => Return (bind_function f obj)
  | Method f _ => Return (bind_function f obj)
  | Partial _ _ _ _ => Raise AttributeError
  end.

(** [s.split('.')[0]] *)
Fixpoint split_dot_head (s : string) : string :=
  match s with
  | EmptyString => EmptyString
  | String c rest =>
      if Ascii.eqb c "."%char then EmptyString else String c (split_dot_head rest)
  end.

(** What line 137 binds to [calling_class]: the class object of the
    instance, or the name of the class. *)
Inductive calling_class_t :=
| ClassObject (c : nat)
| ClassName (s : string).

(** [calling_class != raw_function_class], the right-hand side being a
    string.  A class object is never equal to a string: neither [type] nor
    [str] knows how to compare with the other, so [!=] falls back to
    identity. *)
Definition calling_class_ne (calling_class : calling_class_t)
    (raw_function_class : string) : bool :=
  match calling_class with
  | ClassObject _ => true
  | ClassName s => bool_decide (s ≠ raw_function_class)
  end.

(** ** Rebinding *)

Definition with_name (w : ValidateCallWrapper) (n : option string) : ValidateCallWrapper :=
  {| raw_function := raw_function w;
     _config := _config w;
     _validate_return := _validate_return w;
     __signature__ := __signature__ w;
     __name__ := __name__ w;
     __qualname__ := __qualname__ w;
     __annotations__ := __annotations__ w;
     __module__ := __module__ w;
     __doc__ := __doc__ w;
     __pydantic_core_schema__ := __pydantic_core_schema__ w;
     __pydantic_validator__ := __pydantic_validator__ w;
     __return_pydantic_core_schema__ := __return_pydantic_core_schema__ w;
     __return_pydantic_validator__ := __return_pydantic_validator__ w;
     _name := n |}.

Definition set_wrappers (f : list ValidateCallWrapper → list ValidateCallWrapper)
    (σ : World) : World :=
  {| wrappers := f (wrappers σ);
     types := types σ;
     instances := instances σ;
     invocations := invocations σ |}.

(** Reading the wrapper object [self]. *)
Definition load (self : nat) : M ValidateCallWrapper :=
  λ σ, match wrappers σ !! self with
       | Some w => (σ, Return w)
       | None => (σ, Raise SystemError)
       end.

(** [self._name = name] *)
Definition store_name (self : nat) (name : string) : M unit :=
  λ σ, match wrappers σ !! self with
       | Some w => (set_wrappers (<[self := with_name w (Some name)]>) σ, Return tt)
       | None => (σ, Raise SystemError)
       end.

(** [ValidateCallWrapper.__set_name__] *)
Definition __set_name__ (self : nat) (owner : nat) (name : string) : M unit :=
  store_name self name.

Section Rebinding.
Context `{Externals}.

(** [self.__class__(function, config, validate_return)]: construct, then
    allocate. *)
Definition new_wrapper (function : callable) (config : Config) (validate_return : bool)
    : M nat :=
  λ σ, match __init__ function config validate_return with
       | Return w => (set_wrappers (λ ws, ws ++ [w]) σ, Return (length (wrappers σ)))
       | Raise e => (σ, Raise e)
       end.

(** Lines 120-131: the class-level shortcut.  [Some v] is the value that
    line 128 returns; [None] means execution goes on at line 133. *)
Definition class_level_shortcut (self : nat) (obj : option nat) (objtype : nat)
    : M (option value) :=
  match obj with
  | None =>
      let* w := load self in
      let* name :=
        match _name w with
        | None =>
            let* n := lift (Attr.__name__ (raw_function w)) in
            let* _ := store_name self n in
            ret n
        | Some n => ret n
        end in
      type_own_attribute objtype name
  | Some _ => ret None
  end.

(** Line 137. *)
Definition calling_class_of (obj : option nat) (objtype : nat) : M calling_class_t :=
  λ σ, match obj with
       | Some o =>
           match instances σ !! o with
           | Some i => (σ, Return (ClassObject (PyInstance.__class__ i)))
           | None => (σ, Raise SystemError)
           end
       | None =>
           match types σ !! objtype with
           | Some t => (σ, Return (ClassName (PyType.__name__ t)))
           | None => (σ, Raise SystemError)
           end
       end.

(** Lines 133-150. *)
Definition rebind (self : nat) (obj : option nat) (objtype : nat) : M value :=
  let* w := load self in
  let* bound_function := lift (descr_get (raw_function w) obj objtype) in
  let* result := new_wrapper bound_function (_config w) (_validate_return w) in
  let* has_slots :=
    gets (λ σ, obj_hasattr σ obj "__slots__" || type_hasattr σ objtype "__slots__") in
  let* calling_class := calling_class_of obj objtype in
  let* qualname := lift (Attr.__qualname__ (raw_function w)) in
  let raw_function_class := split_dot_head qualname in
  match _name w with
  | Some name =>
      if negb (has_slots || calling_class_ne calling_class raw_function_class) then
        let* _ :=
          match obj with
          | Some o => object_setattr_instance o name (VWrapper result)
          | None => object_setattr_type objtype name (VWrapper result)
          end in
        ret (VWrapper result)
      else ret (VWrapper result)
  | None => ret (VWrapper result)
  end.

(** [ValidateCallWrapper.__get__] *)
Definition __get__ (self : nat) (obj : option nat) (objtype : nat) : M value :=
  let* found := class_level_shortcut self obj objtype in
  match found with
  | Some v => ret v
  | None => rebind self obj objtype
  end.

(** Attribute access [C.name] on a class: the first hit along the MRO; a
    wrapper found there is a descriptor and is asked to bind with no
    instance; a plain function binds to itself; anything else is returned
    as stored.  With no hit along the MRO the metaclass is left to
    answer. *)
Definition type_getattr (c : nat) (name : string) : M value :=
  λ σ, match mro_lookup σ c name with
       | Some (VWrapper r) => __get__ r None c σ
       | Some v => (σ, Return v)
       | None =>
           match metaclass_attribute c name with
           | Some v => (σ, Return v)
           | None => (σ, Raise AttributeError)
           end
       end.

(** Attribute access [o.name] on an instance.  Wrappers and functions
    define [__get__] only, so the instance's own [__dict__] wins; failing
    that, the hit along the MRO of the class is bound to the instance. *)
Definition instance_getattr (o : nat) (name : string) : M value :=
  λ σ, match instances σ !! o with
       | None => (σ, Raise SystemError)
       | Some i =>
           match PyInstance.__dict__ i !! name with
           | Some v => (σ, Return v)
           | None =>
               match mro_lookup σ (PyInstance.__class__ i) name with
               | Some (VWrapper r) => __get__ r (Some o) (PyInstance.__class__ i) σ
               | Some (VCallable (Function f)) =>
                   (σ, Return (VCallable (Method f (RInst o))))
               | Some v => (σ, Return v)
               | None => (σ, Raise AttributeError)
               end
           end
       end.

End Rebinding.

(** ** Equality and hashing *)

#[local] Instance receiver_eq_dec : EqDecision receiver.
Proof. solve_decision. Defined.

(** [==] on the callables of the model.  Functions and [partial] objects
    compare by identity; bound methods compare their receivers by identity
    and their functions by [==]. *)
Definition callable_eq (a b : callable) : bool :=
  match a, b with
  | Function f, Function g => bool_decide (PyFunction.id f = PyFunction.id g)
  | Method f s, Method g t =>
      bool_decide (s = t) && bool_decide (PyFunction.id f = PyFunction.id g)
  | Partial i _ _ _, Partial j _ _ _ => bool_decide (i = j)
  | _, _ => false
  end.

(** [==] on configuration values; [True == 1] and [False == 0]. *)
Definition config_value_eq (a b : ConfigValue) : bool :=
  match a, b with
  | CBool x, CBool y => bool_decide (x = y)
  | CInt x, CInt y => bool_decide (x = y)
  | CBool x, CInt y => bool_decide (Z.b2z x = y)
  | CInt x, CBool y => bool_decide (x = Z.b2z y)
  | CStr x, CStr y => bool_decide (x = y)
  | _, _ => false
  end.

(** [==] on [ConfigDict | None]: dictionaries are equal when they have the
    same keys with equal values. *)
Definition config_eq (a b : Config) : bool :=
  match a, b with
  | None, None => true
  | Some d, Some e =>
      bool_decide (map_relation (λ _ x y, config_value_eq x y = true)
                                (λ _ _, False) (λ _ _, False) d e)
  | _, _ => false
  end.

(** The right operand of [==], as far as [__eq__] looks at it: each of the
    three attributes is there or not. *)
Record PyObject := {
  attr_raw_function : option callable;
  attr__config : option Config;
  attr__validate_return : option bool;
}.

Definition as_object (w : ValidateCallWrapper) : PyObject :=
  {| attr_raw_function := Some (raw_function w);
     attr__config := Some (_config w);
     attr__validate_return := Some (_validate_return w) |}.

(** [other.name]: a missing attribute raises. *)
Definition getattr {A} (a : option A) : result A :=
  match a with
  | Some x => Return x
  | None => Raise AttributeError
  end.

(** [ValidateCallWrapper.__eq__]; [and] evaluates its right operand only
    when the left one is true. *)
Definition __eq__ (self : ValidateCallWrapper) (other : PyObject) : result bool :=
  (let! r := getattr (attr_raw_function other) in
   if callable_eq (raw_function self) r then
     let! c := getattr (attr__config other) in
     if config_eq (_config self) c then
       let! v := getattr (attr__validate_return other) in
       Return (bool_decide (_validate_return self = v))
     else Return false
   else Return false)%result.

Section Hashing.
Context `{Externals}.

(** [hash] of a callable: identity hashes, combined for a bound method as
    CPython's [method_hash] does. *)
Definition hash_callable (c : callable) : Z :=
  match c with
  | Function f => hash_function (PyFunction.id f)
  | Method f self =>
      let x := Z.lxor (hash_receiver self) (hash_function (PyFunction.id f)) in
      if (x =? -1)%Z then (-2)%Z else x
  | Partial i _ _ _ => hash_partial i
  end.

(** [ValidateCallWrapper.__hash__] *)
Definition __hash__ (self : ValidateCallWrapper) : Z :=
  hash_callable (raw_function self).

End Hashing.

(** ** Printing *)

(** [ValidateCallWrapper.__repr__]: the f-string formats [raw_function]
    with [str], which for callables is what the host prints for them
    ([str_callable]). *)
Definition __repr__ (str_callable : callable → string) (self : ValidateCallWrapper)
    : string :=
  "ValidateCallWrapper(" +:+ str_callable (raw_function self) +:+ ")".

(** Whether a string has a dot in it. *)
Fixpoint has_dot (s : string) : bool :=
  match s with
  | EmptyString => false
  | String c rest => Ascii.eqb c "."%char || has_dot rest
  end.

(** ** A concrete setting

    Collaborators, callables and a class with one wrapped method, used to
    run the definitions. *)
Module Demo.

Definition all_ints (vs : list value) : bool :=
  forallb (λ v, match v with VInt _ => true | _ => false end) vs.

(** A method of [type] or [object], as a function object. *)
Definition builtin (name : string) : PyFunction.t :=
  {| PyFunction.id := 0;
     PyFunction.__name__ := name;
     PyFunction.__qualname__ := "type." +:+ name;
     PyFunction.__annotations__ := [];
     PyFunction.__module__ := "builtins";
     PyFunction.__doc__ := None;
     PyFunction.co_coroutine := false |}.

(** Some of the methods that [type] and [object] have. *)
Definition type_methods : list string :=
  ["__init__"; "__call__"; "__new__"; "mro"; "__eq__"; "__ne__"; "__hash__";
   "__repr__"; "__str__"; "__getattribute__"; "__setattr__"; "__delattr__";
   "__dir__"; "__sizeof__"; "__subclasses__"; "__instancecheck__";
   "__subclasscheck__"; "__init_subclass__"; "__subclasshook__";
   "__reduce__"; "__reduce_ex__"; "__format__"].

(** Arguments and return values are accepted when they are integers; a
    body returns its first positional argument when it is an integer and a
    string otherwise; the metaclass serves the methods of [type], bound to
    the class. *)
#[export] Instance externals : Externals := {|
  inspect_signature := λ _, Return {| parameters := []; return_annotation := None |};
  add_module_globals := λ _, 0;
  generate_arguments_schema := λ _ _ _, Return 0;
  generate_type_schema := λ _ _ _, Return 1;
  core_config_for := λ _ _, 0;
  plugin_settings_of := λ _, 0;
  check_arguments := λ _ _ args kwargs,
    if all_ints args then Some (args, kwargs) else None;
  check_value := λ _ _ v, match v with VInt _ => Some v | _ => None end;
  run_body := λ f args _,
    match args with
    | VInt z :: _ => Return (VInt z)
    | _ => Return (VStr "none")
    end;
  hash_function := λ i, Z.of_nat i;
  hash_receiver := λ r, match r with RInst o => Z.of_nat o | RType c => Z.of_nat c end;
  hash_partial := λ i, Z.of_nat i;
  metaclass_attribute := λ c name,
    if bool_decide (name ∈ type_methods)
    then Some (VCallable (Method (builtin name) (RType c)))
    else None;
|}.

Definition compute : PyFunction.t :=
  {| PyFunction.id := 1;
     PyFunction.__name__ := "compute";
     PyFunction.__qualname__ := "compute";
     PyFunction.__annotations__ := [("x", "int"); ("y", "int")];
     PyFunction.__module__ := "app";
     PyFunction.__doc__ := Some "Add.";
     PyFunction.co_coroutine := false |}.

Definition fetch : PyFunction.t :=
  {| PyFunction.id := 2;
     PyFunction.__name__ := "fetch";
     PyFunction.__qualname__ := "fetch";
     PyFunction.__annotations__ := [("x", "int")];
     PyFunction.__module__ := "app";
     PyFunction.__doc__ := None;
     PyFunction.co_coroutine := true |}.

(** [def m(self, x: int)] in the body of [class A]. *)
Definition A_m : PyFunction.t :=
  {| PyFunction.id := 3;
     PyFunction.__name__ := "m";
     PyFunction.__qualname__ := "A.m";
     PyFunction.__annotations__ := [("x", "int")];
     PyFunction.__module__ := "app";
     PyFunction.__doc__ := None;
     PyFunction.co_coroutine := false |}.

(** The store of wrappers after [validate_call] has wrapped [function] and
    the wrapper has been told [name]; empty if construction raises. *)
Definition wrap (function : callable) (validate_return : bool) (name : option string)
    : list ValidateCallWrapper :=
  match __init__ function None validate_return with
  | Return w => [with_name w name]
  | Raise _ => []
  end.

(** [class A] with the wrapped method [m] (the class body has told the
    wrapper its name), [class B(A)] with nothing of its own, an instance
    [a] of [A] and an instance [b] of [B]. *)
Definition world : World :=
  {| wrappers := wrap (Function A_m) false (Some "m");
     types :=
       <[0 := {| PyType.__name__ := "A"; PyType.__mro__ := [0];
                 PyType.__dict__ := {["m" := VWrapper 0]} |}]>
       (<[1 := {| PyType.__name__ := "B"; PyType.__mro__ := [1; 0];
                  PyType.__dict__ := ∅ |}]> ∅);
     instances :=
       <[0 := {| PyInstance.__class__ := 0; PyInstance.__dict__ := ∅ |}]>
       (<[1 := {| PyInstance.__class__ := 1; PyInstance.__dict__ := ∅ |}]> ∅);
     invocations := [] |}.


(** As [world_dynamic], in a class that also holds the integer 5 under the
    name of the wrapped function: [class A: compute = 5] followed by
    [A.m = validate_call(compute)]. *)
Definition world_shadowed : World :=
  {| wrappers := wrap (Function compute) false None;
     types :=
       <[0 := {| PyType.__name__ := "A"; PyType.__mro__ := [0];
                 PyType.__dict__ := <["compute" := VInt 5]> {["m" := VWrapper 0]} |}]> ∅;
     instances := ∅;
     invocations := [] |}.

(** [functools.partial(compute, 1)] wrapped and put into the body of
    [class A] under the name [p]; [a] is an instance of [A]. *)
Definition world_partial : World :=
  {| wrappers := wrap (Partial 7 (Function compute) [VInt 1] []) false (Some "p");
     types :=
       <[0 := {| PyType.__name__ := "A"; PyType.__mro__ := [0];
                 PyType.__dict__ := {["p" := VWrapper 0]} |}]> ∅;
     instances := <[0 := {| PyInstance.__class__ := 0; PyInstance.__dict__ := ∅ |}]> ∅;
     invocations := [] |}.

(** [def __call__(self, x: int)] in the body of [class A]. *)
Definition A_call : PyFunction.t :=
  {| PyFunction.id := 4;
     PyFunction.__name__ := "__call__";
     PyFunction.__qualname__ := "A.__call__";
     PyFunction.__annotations__ := [("x", "int")];
     PyFunction.__module__ := "app";
     PyFunction.__doc__ := None;
     PyFunction.co_coroutine := false |}.

(** [class A] with the wrapped method [__call__], and [class B(A)] with
    nothing of its own. *)
Definition world_dunder : World :=
  {| wrappers := wrap (Function A_call) false (Some "__call__");
     types :=
       <[0 := {| PyType.__name__ := "A"; PyType.__mro__ := [0];
                 PyType.__dict__ := {["__call__" := VWrapper 0]} |}]>
       (<[1 := {| PyType.__name__ := "B"; PyType.__mro__ := [1; 0];
                  PyType.__dict__ := ∅ |}]> ∅);
     instances := ∅;
     invocations := [] |}.

(** [class A] as in [world], and a subclass of it that is also called
    [A], as when a module subclasses a class of the same name from another
    module. *)
Definition world_same_name : World :=
  {| wrappers := wrap (Function A_m) false (Some "m");
     types :=
       <[0 := {| PyType.__name__ := "A"; PyType.__mro__ := [0];
                 PyType.__dict__ := {["m" := VWrapper 0]} |}]>
       (<[1 := {| PyType.__name__ := "A"; PyType.__mro__ := [1; 0];
                  PyType.__dict__ := ∅ |}]> ∅);
     instances := ∅;
     invocations := [] |}.

End Demo.

(** * Properties *)

(** ** Construction *)

Ltac result_inv :=
  repeat match goal with
  | H : rbind ?r _ = Return _ |- _ =>
      let E := fresh "E" in
      destruct r eqn:E; simpl in H; [ | discriminate H ]
  | H : Return _ = Return _ |- _ => injection H as H
  end.

Section ConstructionFacts.
Context `{Externals}.

(** What a successful construction has gone through, and what it built. *)
Lemma init_inv function config validate_return w :
  __init__ function config validate_return = Return w →
  ∃ sig i a rv,
    inspect_signature function = Return sig ∧
    resolve_identity function = Return i ∧
    generate_arguments_schema config (add_module_globals function) function = Return a ∧
    build_return_validation function sig i config (add_module_globals function)
      (core_config_for config (id_name i)) validate_return = Return rv ∧
    w = {| raw_function := function;
           _config := config;
           _validate_return := validate_return;
           __signature__ := sig;
           __name__ := id_name i;
           __qualname__ := id_qualname i;
           __annotations__ := id_annotations i;
           __module__ := id_module i;
           __doc__ := id_doc i;
           __pydantic_core_schema__ := CallSchema a function;
           __pydantic_validator__ :=
             create_schema_validator (CallSchema a function) (id_schema_type i)
               (id_module i) (id_qualname i) "validate_call"
               (core_config_for config (id_name i)) (plugin_settings_of config);
           __return_pydantic_core_schema__ := fst rv;
           __return_pydantic_validator__ := snd rv;
           _name := None |}.
Proof.
  unfold __init__, generate_schema_callable. intros Hinit.
  result_inv. subst.
  eexists _, _, _, _. repeat split; eauto.
Qed.

Lemma init_raw_function function config validate_return w :
  __init__ function config validate_return = Return w →
  raw_function w = function ∧ _config w = config ∧
  _validate_return w = validate_return ∧ _name w = None.
Proof.
  intros Hinit. apply init_inv in Hinit as (sig & i & a & rv & _ & _ & _ & _ & ->).
  done.
Qed.

(** The identity of a function or bound method is that of its function. *)
Lemma resolve_identity_plain function u :
  is_partial function = false →
  Attr.function_of function = Return u →
  resolve_identity function =
    Return {| id_schema_type := function;
              id_name := PyFunction.__name__ u;
              id_qualname := PyFunction.__qualname__ u;
              id_annotations := PyFunction.__annotations__ u;
              id_module := PyFunction.__module__ u;
              id_doc := PyFunction.__doc__ u |}.
Proof.
  intros Hp Hu. destruct function; try discriminate;
    simpl in Hu; injection Hu as ->; reflexivity.
Qed.

Lemma resolve_identity_partial i func args keywords u :
  Attr.function_of func = Return u →
  resolve_identity (Partial i func args keywords) =
    Return {| id_schema_type := func;
              id_name := "partial(" +:+ PyFunction.__name__ u +:+ ")";
              id_qualname := "partial(" +:+ PyFunction.__qualname__ u +:+ ")";
              id_annotations := PyFunction.__annotations__ u;
              id_module := PyFunction.__module__ u;
              id_doc := PyFunction.__doc__ u |}.
Proof.
  intros Hu. unfold resolve_identity, Attr.__name__, Attr.__qualname__,
    Attr.__annotations__, Attr.__module__, Attr.__doc__.
  rewrite Hu. reflexivity.
Qed.

(** C7.  Wrapping a partial application [p] of an underlying function [u]
    gives the display name ["partial(" + u.__name__ + ")"], the qualified
    name ["partial(" + u.__qualname__ + ")"], and the annotations, module
    and doc of [u]; wrapping a callable that is not a partial gives that
    callable's own five fields.  Construction goes through whenever the
    signature and the schemas can be had. *)
Theorem init_identity_fields (function : callable) (config : Config)
    (validate_return : bool) (u : PyFunction.t) (sig : Signature) (a : SchemaBody) :
  Attr.function_of (match function with
                    | Partial _ func _ _ => func
                    | _ => function
                    end) = Return u →
  inspect_signature function = Return sig →
  generate_arguments_schema config (add_module_globals function) function = Return a →
  (validate_return = true →
   ∃ b, generate_type_schema config (add_module_globals function)
          (return_type_of sig) = Return b) →
  ∃ w, __init__ function config validate_return = Return w ∧
       raw_function w = function ∧
       __annotations__ w = PyFunction.__annotations__ u ∧
       __module__ w = PyFunction.__module__ u ∧
       __doc__ w = PyFunction.__doc__ u ∧
       if is_partial function
       then __name__ w = "partial(" +:+ PyFunction.__name__ u +:+ ")" ∧
            __qualname__ w = "partial(" +:+ PyFunction.__qualname__ u +:+ ")"
       else __name__ w = PyFunction.__name__ u ∧
            __qualname__ w = PyFunction.__qualname__ u.
Proof.
  intros Hu Hsig Ha Hb.
  assert (Hid : ∃ i, resolve_identity function = Return i ∧
            id_annotations i = PyFunction.__annotations__ u ∧
            id_module i = PyFunction.__module__ u ∧
            id_doc i = PyFunction.__doc__ u ∧
            if is_partial function
            then id_name i = "partial(" +:+ PyFunction.__name__ u +:+ ")" ∧
                 id_qualname i = "partial(" +:+ PyFunction.__qualname__ u +:+ ")"
            else id_name i = PyFunction.__name__ u ∧
                 id_qualname i = PyFunction.__qualname__ u).
  { destruct function as [f|f s|i func args kw].
    - rewrite (resolve_identity_plain _ u) by done. eexists; simpl; eauto 10.
    - rewrite (resolve_identity_plain _ u) by done. eexists; simpl; eauto 10.
    - rewrite (resolve_identity_partial _ _ _ _ u) by done. eexists; simpl; eauto 10. }
  destruct Hid as (i & Hi & Hann & Hmod & Hdoc & Hnames).
  unfold __init__, generate_schema_callable, build_return_validation.
  rewrite Hsig, Hi, Ha. simpl.
  destruct validate_return.
  - destruct (Hb eq_refl) as [b Hb']. unfold generate_schema_type.
    rewrite Hb'. simpl.
    eexists; split; [reflexivity|]. simpl. auto.
  - simpl. eexists; split; [reflexivity|]. simpl. auto.
Qed.

(** C4.  With [validate_return] on, the constructor stores one of two
    return validators on the wrapper: the closure [return_val_wrapper] when
    the callable is a coroutine function, [validator.validate_python]
    otherwise.  Every call then follows the stored one: it hands the result
    of the argument validator to it, and any wrapper holding the same
    validators behaves alike when called, whatever its raw callable is. *)
Theorem return_strategy_fixed_at_construction (f : callable) (config : Config)
    (w : ValidateCallWrapper) :
  __init__ f config true = Return w →
  ∃ validator,
    __return_pydantic_validator__ w =
      Some (if iscoroutinefunction f
            then return_val_wrapper validator
            else validate_python_of validator) ∧
    (∀ args kwargs,
       __call__ w args kwargs =
         let* res := validate_python (__pydantic_validator__ w) (VArgsKwargs args kwargs) in
         if iscoroutinefunction f
         then ret (VCoroutine (CoReturnVal validator res))
         else validate_python validator res) ∧
    (∀ w' args kwargs,
       __pydantic_validator__ w' = __pydantic_validator__ w →
       __return_pydantic_validator__ w' = __return_pydantic_validator__ w →
       __call__ w' args kwargs = __call__ w args kwargs).
Proof.
  intros Hinit.
  apply init_inv in Hinit as (sig & i & a & rv & _ & _ & _ & Hrv & ->).
  unfold build_return_validation in Hrv. result_inv. subst rv. simpl.
  eexists. split; [reflexivity|]. split.
  - intros args kwargs. unfold __call__. simpl.
    destruct (iscoroutinefunction f); reflexivity.
  - intros w' args kwargs Hv Hr. unfold __call__. rewrite Hv, Hr. reflexivity.
Qed.

End ConstructionFacts.

(** ** Calling *)

Section CallingFacts.
Context `{Externals}.

(** The argument validator of a constructed wrapper either rejects the
    bundle or runs the raw callable on the coerced arguments. *)
Lemma validate_arguments_of_init f config validate_return w args kwargs :
  __init__ f config validate_return = Return w →
  validate_python (__pydantic_validator__ w) (VArgsKwargs args kwargs) =
    match check_call w args kwargs with
    | Some (args', kwargs') => call_callable f args' kwargs'
    | None => raise ValidationError
    end.
Proof.
  intros Hinit.
  apply init_inv in Hinit as (sig & i & a & rv & _ & _ & _ & _ & ->).
  unfold validate_python, check_call. simpl.
  destruct (check_arguments _ _ _ _) as [[??]|]; reflexivity.
Qed.

(** Calling a coroutine function, bound or partially applied or not, runs
    nothing and yields the coroutine object of the underlying function. *)
Lemma call_coroutine_function c :
  iscoroutinefunction c = true →
  ∀ args kwargs, ∃ g gargs gkwargs,
    PyFunction.co_coroutine g = true ∧
    call_callable c args kwargs = ret (VCoroutine (CoCall g gargs gkwargs)).
Proof.
  induction c as [f|f s|i func IH pargs keywords]; simpl; intros Hco args kwargs.
  - exists f, args, kwargs. unfold call_function. rewrite Hco. done.
  - exists f, (receiver_value s :: args), kwargs. unfold call_function.
    rewrite Hco. done.
  - apply IH. exact Hco.
Qed.

(** C2.  When the argument bundle violates the arguments schema of a
    wrapper, the call raises [ValidationError] and leaves the store as it
    was: no body has run, the log of invocations is the one from before. *)
Theorem call_rejects_invalid_arguments (f : callable) (config : Config)
    (validate_return : bool) (w : ValidateCallWrapper)
    (args : list value) (kwargs : list (string * value)) (σ : World) :
  __init__ f config validate_return = Return w →
  check_call w args kwargs = None →
  __call__ w args kwargs σ = (σ, Raise ValidationError) ∧
  invocations (__call__ w args kwargs σ).1 = invocations σ.
Proof.
  intros Hinit Hbad.
  assert (Hcall : __call__ w args kwargs σ = (σ, Raise ValidationError)).
  { unfold __call__, bind.
    rewrite (validate_arguments_of_init _ _ _ _ _ _ Hinit), Hbad. reflexivity. }
  rewrite Hcall. done.
Qed.

(** C8.  With [validate_return] off and an argument bundle that the
    arguments schema accepts, the call is the run of the raw callable on
    the coerced arguments and nothing more: same result, same effects, and
    no validator looks at the result. *)
Theorem call_without_return_validation (f : callable) (config : Config)
    (w : ValidateCallWrapper) (args args' : list value)
    (kwargs kwargs' : list (string * value)) (σ : World) :
  __init__ f config false = Return w →
  check_call w args kwargs = Some (args', kwargs') →
  __return_pydantic_validator__ w = None ∧
  __call__ w args kwargs σ = call_callable f args' kwargs' σ ∧
  (∀ σ' r, call_callable f args' kwargs' σ = (σ', Return r) →
           __call__ w args kwargs σ = (σ', Return r)).
Proof.
  intros Hinit Hok.
  assert (Hnone : __return_pydantic_validator__ w = None).
  { apply init_inv in Hinit as (sig & i & a & rv & _ & _ & _ & Hrv & ->).
    simpl in Hrv. injection Hrv as <-. reflexivity. }
  assert (Hcall : __call__ w args kwargs σ = call_callable f args' kwargs' σ).
  { unfold __call__, bind.
    rewrite (validate_arguments_of_init _ _ _ _ _ _ Hinit), Hok, Hnone.
    destruct (call_callable f args' kwargs' σ) as [σ' [r|e]]; reflexivity. }
  split; [exact Hnone|]. split; [exact Hcall|].
  intros σ' r Hr. rewrite Hcall. exact Hr.
Qed.

(** C5.  For a coroutine function wrapped with [validate_return] on, a
    call with accepted arguments raises nothing and runs nothing: it
    returns the coroutine of [return_val_wrapper] around the very coroutine
    that calling the raw callable on the coerced arguments yields.
    Awaiting it awaits that coroutine first, which runs the body, and
    validates what the body returned afterwards; an invalid return value
    raises [ValidationError] there, with the body's run already in the
    log. *)
Theorem async_return_validation_deferred (f : callable) (config : Config)
    (w : ValidateCallWrapper) (args args' : list value)
    (kwargs kwargs' : list (string * value)) :
  iscoroutinefunction f = true →
  __init__ f config true = Return w →
  check_call w args kwargs = Some (args', kwargs') →
  ∃ validator g gargs gkwargs,
    let original := CoCall g gargs gkwargs in
    let pending := CoReturnVal validator (VCoroutine original) in
    __return_pydantic_validator__ w = Some (return_val_wrapper validator) ∧
    PyFunction.co_coroutine g = true ∧
    call_callable f args' kwargs' = ret (VCoroutine original) ∧
    (∀ σ, await original σ =
          (log_invocation g gargs gkwargs σ, run_body g gargs gkwargs)) ∧
    (∀ σ, __call__ w args kwargs σ = (σ, Return (VCoroutine pending))) ∧
    (∀ σ, await pending σ =
          let σ' := log_invocation g gargs gkwargs σ in
          match run_body g gargs gkwargs with
          | Return r =>
              match check_return validator r with
              | Some r' => (σ', Return r')
              | None => (σ', Raise ValidationError)
              end
          | Raise e => (σ', Raise e)
          end).
Proof.
  intros Hco Hinit Hok.
  destruct (call_coroutine_function f Hco args' kwargs')
    as (g & gargs & gkwargs & Hg & Hcallf).
  pose proof (validate_arguments_of_init _ _ _ _ args kwargs Hinit) as Hval.
  rewrite Hok, Hcallf in Hval.
  apply init_inv in Hinit as (sig & i & a & rv & _ & _ & _ & Hrv & ->).
  unfold build_return_validation in Hrv. result_inv. subst rv.
  rewrite Hco in *. simpl in *.
  eexists _, g, gargs, gkwargs. split; [reflexivity|].
  split; [exact Hg|]. split; [exact Hcallf|]. split; [reflexivity|]. split.
  - intros σ. unfold __call__, bind. simpl. rewrite Hval. reflexivity.
  - intros σ. simpl. unfold bind, execute.
    destruct (run_body g gargs gkwargs) as [r|e]; [|reflexivity].
    unfold validate_python, check_return.
    unfold generate_schema_type in E. result_inv. subst. simpl.
    destruct (check_value _ _ r); reflexivity.
Qed.

End CallingFacts.

(** ** Equality and hashing *)

Lemma callable_eq_refl c : callable_eq c c = true.
Proof.
  destruct c; simpl; rewrite ?bool_decide_eq_true_2; done.
Qed.

Lemma config_value_eq_refl v : config_value_eq v v = true.
Proof. destruct v; simpl; by apply bool_decide_eq_true_2. Qed.

Lemma config_eq_refl c : config_eq c c = true.
Proof.
  destruct c as [d|]; simpl; [|done].
  apply bool_decide_eq_true_2. unfold map_relation. intros k.
  destruct (d !! k); simpl; [apply config_value_eq_refl|done].
Qed.

Section EqualityFacts.
Context `{Externals}.

(** Callables that compare equal hash equally. *)
Lemma hash_callable_proper c c' :
  callable_eq c c' = true → hash_callable c = hash_callable c'.
Proof.
  destruct c, c'; simpl; try discriminate.
  - intros ->%bool_decide_eq_true. done.
  - intros [->%bool_decide_eq_true ->%bool_decide_eq_true]%andb_prop. done.
  - intros ->%bool_decide_eq_true. done.
Qed.

(** Between wrappers [__eq__] never raises: it is the conjunction of the
    three comparisons. *)
Lemma eq_wrappers w1 w2 :
  __eq__ w1 (as_object w2) =
    Return (callable_eq (raw_function w1) (raw_function w2)
            && config_eq (_config w1) (_config w2)
            && bool_decide (_validate_return w1 = _validate_return w2)).
Proof.
  unfold __eq__. simpl.
  destruct (callable_eq _ _); simpl; [|done].
  destruct (config_eq _ _); simpl; done.
Qed.

(** C6.  Two wrappers are equal exactly when their raw callables are
    equal, their configs are equal and their [validate_return] flags are
    equal, and the comparison never raises; the hash of a wrapper is the
    hash of its raw callable; so two wrappers made from the same callable,
    config and flag, or from equal ones, are equal and have the same
    hash. *)
Theorem eq_hash_agree (w1 w2 : ValidateCallWrapper) :
  (__eq__ w1 (as_object w2) = Return true ↔
     callable_eq (raw_function w1) (raw_function w2) = true ∧
     config_eq (_config w1) (_config w2) = true ∧
     _validate_return w1 = _validate_return w2) ∧
  (__eq__ w1 (as_object w2) = Return true ∨ __eq__ w1 (as_object w2) = Return false) ∧
  __hash__ w1 = hash_callable (raw_function w1) ∧
  (∀ f config validate_return,
     __init__ f config validate_return = Return w1 →
     __init__ f config validate_return = Return w2 →
     __eq__ w1 (as_object w2) = Return true ∧ __hash__ w1 = __hash__ w2) ∧
  (∀ f f' config config' validate_return,
     callable_eq f f' = true →
     config_eq config config' = true →
     __init__ f config validate_return = Return w1 →
     __init__ f' config' validate_return = Return w2 →
     __eq__ w1 (as_object w2) = Return true ∧ __hash__ w1 = __hash__ w2).
Proof.
  assert (Hgen : ∀ f f' config config' validate_return,
     callable_eq f f' = true →
     config_eq config config' = true →
     __init__ f config validate_return = Return w1 →
     __init__ f' config' validate_return = Return w2 →
     __eq__ w1 (as_object w2) = Return true ∧ __hash__ w1 = __hash__ w2).
  { intros f f' config config' validate_return Hf Hc Hw1 Hw2.
    apply init_raw_function in Hw1 as (Hf1 & Hc1 & Hv1 & _).
    apply init_raw_function in Hw2 as (Hf2 & Hc2 & Hv2 & _).
    split.
    - rewrite eq_wrappers, Hf1, Hf2, Hc1, Hc2, Hv1, Hv2, Hf, Hc. simpl.
      by rewrite bool_decide_eq_true_2.
    - unfold __hash__. apply hash_callable_proper. by rewrite Hf1, Hf2. }
  rewrite eq_wrappers. split; [split|split; [|split; [|split]]].
  - intros [= Hb]. apply andb_prop in Hb as [Hb Hv].
    apply andb_prop in Hb as [Hf Hc].
    apply bool_decide_eq_true in Hv. done.
  - intros (Hf & Hc & Hv). rewrite Hf, Hc. simpl.
    by rewrite bool_decide_eq_true_2.
  - destruct (_ && _ && _); auto.
  - reflexivity.
  - intros f config validate_return Hw1 Hw2.
    rewrite <- eq_wrappers.
    apply (Hgen f f config config validate_return);
      auto using callable_eq_refl, config_eq_refl.
  - intros f f' config config' validate_return Hf Hc Hw1 Hw2.
    rewrite <- eq_wrappers. by apply (Hgen f f' config config' validate_return).
Qed.

(** [and] short-circuits: an object that has a different [raw_function]
    and nothing else compares unequal without raising. *)
Lemma eq_short_circuits w r :
  callable_eq (raw_function w) r = false →
  __eq__ w {| attr_raw_function := Some r;
              attr__config := None;
              attr__validate_return := None |} = Return false.
Proof. intros Hne. unfold __eq__. simpl. by rewrite Hne. Qed.

(** C10.  Comparing a wrapper with an object that has no [raw_function]
    attribute, as is any object with none of [raw_function], [_config] and
    [_validate_return], raises [AttributeError]: [__eq__] reads
    [other.raw_function] first, and returns neither [False] nor
    [NotImplemented]. *)
Theorem eq_non_wrapper_raises (w : ValidateCallWrapper) (o : PyObject) :
  attr_raw_function o = None →
  __eq__ w o = Raise AttributeError.
Proof. intros Hnone. unfold __eq__. rewrite Hnone. reflexivity. Qed.

End EqualityFacts.

(** ** Rebinding *)

Section RebindingFacts.
Context `{Externals}.

Ltac failed_branch := split_and!; eauto 10; intros ? [=].

(** Lines 133-150 write nothing but, at most, one new wrapper at the end
    of the store, and what they return is that wrapper.  With an instance
    at hand [calling_class] is a class object, the comparison with the
    string [raw_function_class] is always true, and the guard of line 145
    is false; with no instance the only write that the guard lets through
    is refused by the host. *)
Lemma rebind_spec self obj objtype σ :
  let out := rebind self obj objtype σ in
  types out.1 = types σ ∧
  instances out.1 = instances σ ∧
  invocations out.1 = invocations σ ∧
  (wrappers out.1 = wrappers σ ∨
   ∃ w bound wnew,
     wrappers σ !! self = Some w ∧
     descr_get (raw_function w) obj objtype = Return bound ∧
     __init__ bound (_config w) (_validate_return w) = Return wnew ∧
     wrappers out.1 = wrappers σ ++ [wnew]) ∧
  (∀ v, out.2 = Return v →
        v = VWrapper (length (wrappers σ)) ∧ wrappers out.1 ≠ wrappers σ).
Proof.
  unfold rebind, bind, load, lift, new_wrapper, gets, calling_class_of,
    object_setattr_instance, object_setattr_type, raise, ret.
  destruct (wrappers σ !! self) as [w|] eqn:Hw; simpl; [|by failed_branch].
  destruct (descr_get _ _ _) as [bound|e] eqn:Hd; simpl; [|by failed_branch].
  destruct (__init__ _ _ _) as [wnew|e] eqn:Hi; simpl; [|by failed_branch].
  assert (Hnew : wrappers σ ++ [wnew] ≠ wrappers σ).
  { intros Heq. apply (f_equal length) in Heq. rewrite length_app in Heq.
    simpl in Heq. lia. }
  destruct obj as [o|]; simpl.
  - destruct (instances σ !! o) as [i|]; simpl; [|by failed_branch].
    destruct (Attr.__qualname__ _) as [q|e]; simpl; [|by failed_branch].
    destruct (_name w) as [name|]; simpl; rewrite ?orb_true_r; simpl.
    all: split_and!; eauto 10; intros v [= <-]; auto.
  - destruct (types σ !! objtype) as [t|]; simpl; [|by failed_branch].
    destruct (Attr.__qualname__ _) as [q|e]; simpl; [|by failed_branch].
    destruct (_name w) as [name|]; simpl.
    + destruct (negb _); simpl.
      * split_and!; eauto 10. intros v [=].
      * split_and!; eauto 10; intros v [= <-]; auto.
    + split_and!; eauto 10; intros v [= <-]; auto.
Qed.



(** Lines 120-131 change the store in one way at most: [_name] of the
    wrapper goes from [None] to the name of the raw function.  What they
    return is the entry that the class itself holds under the name the
    wrapper then has or, the class holding none, what the metaclass serves
    under that name. *)
Lemma shortcut_spec self obj objtype σ :
  let out := class_level_shortcut self obj objtype σ in
  types out.1 = types σ ∧
  instances out.1 = instances σ ∧
  invocations out.1 = invocations σ ∧
  (wrappers out.1 = wrappers σ ∨
   ∃ w n,
     obj = None ∧ wrappers σ !! self = Some w ∧ _name w = None ∧
     Attr.__name__ (raw_function w) = Return n ∧
     wrappers out.1 = <[self := with_name w (Some n)]> (wrappers σ)) ∧
  (∀ v, out.2 = Return (Some v) →
        obj = None ∧
        ∃ t name,
          types σ !! objtype = Some t ∧
          (wrappers out.1 !! self ≫= _name) = Some name ∧
          match PyType.__dict__ t !! name with
          | Some own => v = own
          | None => metaclass_attribute objtype name = Some v
          end).
Proof.
  unfold class_level_shortcut, bind, load, lift, store_name, type_own_attribute, ret.
  destruct obj as [o|]; simpl; [by failed_branch|].
  destruct (wrappers σ !! self) as [w|] eqn:Hw; simpl; [|by failed_branch].
  pose proof (lookup_lt_Some _ _ _ Hw) as Hlt.
  destruct (_name w) as [name|] eqn:Hn; simpl.
  - destruct (types σ !! objtype) as [t|] eqn:Ht; simpl; [|by failed_branch].
    split_and!; auto. intros v [= Hv]. split; [done|].
    exists t, name. rewrite Hw. simpl. split_and!; auto.
    destruct (PyType.__dict__ t !! name); congruence.
  - destruct (Attr.__name__ _) as [n|e] eqn:Ha; simpl; [|by failed_branch].
    rewrite Hw. simpl.
    destruct (types σ !! objtype) as [t|] eqn:Ht; simpl.
    + split_and!; eauto 10. intros v [= Hv]. split; [done|].
      exists t, n. rewrite list_lookup_insert_eq by done. simpl. split_and!; auto.
      destruct (PyType.__dict__ t !! n); congruence.
    + split_and!; eauto 10. intros v [=].
Qed.


Lemma shortcut_instance self o objtype σ :
  class_level_shortcut self (Some o) objtype σ = (σ, Return None).
Proof. reflexivity. Qed.

(** A class that has no entry of its own under the wrapper's name, and
    whose metaclass serves nothing under it, falls through to rebinding,
    the store untouched. *)
Lemma shortcut_inherited self objtype σ w name t :
  wrappers σ !! self = Some w →
  _name w = Some name →
  types σ !! objtype = Some t →
  PyType.__dict__ t !! name = None →
  metaclass_attribute objtype name = None →
  class_level_shortcut self None objtype σ = (σ, Return None).
Proof.
  intros Hw Hn Ht Hd Hm.
  unfold class_level_shortcut, bind, load, type_own_attribute, ret.
  rewrite Hw. simpl. rewrite Hn. simpl. rewrite Ht, Hd, Hm. reflexivity.
Qed.

(** No attribute access ever leaves anything in the [__dict__] of an
    instance or of a class. *)
Lemma get_never_writes_attributes self obj objtype σ :
  types (__get__ self obj objtype σ).1 = types σ ∧
  instances (__get__ self obj objtype σ).1 = instances σ ∧
  invocations (__get__ self obj objtype σ).1 = invocations σ.
Proof.
  unfold __get__, bind.
  pose proof (shortcut_spec self obj objtype σ) as (Ht & Hi & Hv & _ & _).
  destruct (class_level_shortcut self obj objtype σ) as [σ1 [[v|]|e]]; simpl in *; auto.
  pose proof (rebind_spec self obj objtype σ1) as (Ht' & Hi' & Hv' & _).
  simpl in *. rewrite Ht', Hi', Hv'. auto.
Qed.

(** Rebinding goes through when the bound callable can be wrapped and the
    guard of line 145 is false. *)
Lemma rebind_returns self obj objtype σ w bound wnew :
  wrappers σ !! self = Some w →
  descr_get (raw_function w) obj objtype = Return bound →
  __init__ bound (_config w) (_validate_return w) = Return wnew →
  match obj with
  | Some o => is_Some (instances σ !! o)
  | None =>
      ∃ t, types σ !! objtype = Some t ∧
           (type_hasattr σ objtype "__slots__" = true ∨
            ∀ q, Attr.__qualname__ (raw_function w) = Return q →
                 PyType.__name__ t ≠ split_dot_head q)
  end →
  rebind self obj objtype σ =
    (set_wrappers (λ ws, ws ++ [wnew]) σ, Return (VWrapper (length (wrappers σ)))).
Proof.
  intros Hw Hd Hi Hobj.
  assert (Hq : ∃ q, Attr.__qualname__ (raw_function w) = Return q).
  { destruct (raw_function w); simpl in *; eauto. discriminate. }
  destruct Hq as [q Hq].
  unfold rebind, bind, load, lift, new_wrapper, gets, calling_class_of,
    object_setattr_instance, object_setattr_type, raise, ret.
  rewrite Hw. simpl. rewrite Hd. simpl. rewrite Hi. simpl.
  destruct obj as [o|]; simpl.
  - destruct Hobj as [i Hi']. rewrite Hi'. simpl. rewrite Hq. simpl.
    rewrite orb_true_r. simpl. by destruct (_name w).
  - destruct Hobj as (t & Ht & Hguard). rewrite Ht. simpl. rewrite Hq. simpl.
    destruct (_name w) as [name|]; [|done].
    assert (Hg : type_hasattr (set_wrappers (λ ws, ws ++ [wnew]) σ) objtype "__slots__"
                 || bool_decide (PyType.__name__ t ≠ split_dot_head q) = true).
    { destruct Hguard as [Hs|Hne].
      - unfold type_hasattr, mro_lookup in *. simpl. rewrite Hs. done.
      - rewrite (bool_decide_eq_true_2 _ (Hne q Hq)). apply orb_true_r. }
    rewrite Hg. reflexivity.
Qed.



(** X17.  A wrapper that knows its name is reached through a class [sub]
    that has no entry of its own under that name, the method being
    inherited and the name being none that the metaclass serves, or
    through an instance.  Whatever the access returns is a wrapper that was
    not in the store before, built around the raw callable bound for this
    very access, and no namespace of any class or instance is written.  The
    access does return whenever the bound callable can be wrapped and, with
    no instance, [sub] has [__slots__] or a name other than the class named
    in the function's [__qualname__].  The last part ties this to attribute
    lookup on [sub] and on its instances. *)
Theorem inherited_access_binds_afresh (self : nat) (obj : option nat) (sub : nat)
    (σ : World) (w : ValidateCallWrapper) (name : string) (t : PyType.t) :
  wrappers σ !! self = Some w →
  _name w = Some name →
  types σ !! sub = Some t →
  PyType.__dict__ t !! name = None →
  metaclass_attribute sub name = None →
  (∀ σ' v, __get__ self obj sub σ = (σ', Return v) →
     v = VWrapper (length (wrappers σ)) ∧
     wrappers σ !! length (wrappers σ) = None ∧
     types σ' = types σ ∧
     instances σ' = instances σ ∧
     ∃ bound wnew,
       descr_get (raw_function w) obj sub = Return bound ∧
       __init__ bound (_config w) (_validate_return w) = Return wnew ∧
       wrappers σ' = wrappers σ ++ [wnew]) ∧
  (∀ bound wnew,
     descr_get (raw_function w) obj sub = Return bound →
     __init__ bound (_config w) (_validate_return w) = Return wnew →
     match obj with
     | Some o => is_Some (instances σ !! o)
     | None =>
         type_hasattr σ sub "__slots__" = true ∨
         ∀ q, Attr.__qualname__ (raw_function w) = Return q →
              PyType.__name__ t ≠ split_dot_head q
     end →
     __get__ self obj sub σ =
       (set_wrappers (λ ws, ws ++ [wnew]) σ, Return (VWrapper (length (wrappers σ))))) ∧
  (mro_lookup σ sub name = Some (VWrapper self) →
     type_getattr sub name σ = __get__ self None sub σ ∧
     ∀ o i, instances σ !! o = Some i →
            PyInstance.__class__ i = sub →
            PyInstance.__dict__ i !! name = None →
            instance_getattr o name σ = __get__ self (Some o) sub σ).
Proof.
  intros Hw Hn Ht Hd Hm.
  assert (Hget : __get__ self obj sub σ = rebind self obj sub σ).
  { unfold __get__, bind. destruct obj as [o|].
    - by rewrite shortcut_instance.
    - by rewrite (shortcut_inherited _ _ _ _ _ _ Hw Hn Ht Hd Hm). }
  split_and!.
  - intros σ' v Hout. rewrite Hget in Hout.
    pose proof (rebind_spec self obj sub σ) as (Hty & Hin & _ & Hws & Hv).
    rewrite Hout in Hty, Hin, Hws, Hv. simpl in *.
    destruct (Hv v eq_refl) as (-> & Hne).
    split_and!; auto.
    + by apply lookup_ge_None_2.
    + destruct Hws as [?|(w0 & bound & wnew & Hw0 & ? & ? & ?)]; [done|].
      rewrite Hw in Hw0. injection Hw0 as <-. eauto.
  - intros bound wnew Hb Hi Hobj. rewrite Hget.
    apply (rebind_returns _ _ _ _ w bound wnew); auto.
    destruct obj; [done|]. eauto.
  - intros Hmro. split.
    + unfold type_getattr. by rewrite Hmro.
    + intros o i Hi Hc Hown. unfold instance_getattr.
      by rewrite Hi, Hown, Hc, Hmro.
Qed.

End RebindingFacts.

#[local] Existing Instance Demo.externals.

(** C1, at a failing input.  [a = A()], with [m] a wrapped method declared
    in [A]: the wrapper knows its name, neither [a] nor [A] has
    [__slots__], and [A] is the class named in the [__qualname__] of the
    function.  All the same [a.m] stores nothing on [a], and a second [a.m]
    builds yet another wrapper. *)
Theorem instance_access_is_not_cached :
  let σ0 := Demo.world in
  let first := instance_getattr 0 "m" σ0 in
  let second := instance_getattr 0 "m" first.1 in
  (_name <$> wrappers σ0 !! 0) = Some (Some "m") ∧
  obj_hasattr σ0 (Some 0) "__slots__" || type_hasattr σ0 0 "__slots__" = false ∧
  (PyType.__name__ <$> types σ0 !! 0) =
    Some (split_dot_head (PyFunction.__qualname__ Demo.A_m)) ∧
  first.2 = Return (VWrapper 1) ∧
  instances first.1 = instances σ0 ∧
  second.2 = Return (VWrapper 2).
Proof. split_and!; vm_compute; reflexivity. Qed.


(** With no instance, a name that is known, no [__slots__] and a class
    called like the one in [__qualname__], line 149 is reached, and the
    host refuses the write: the access through the subclass raises. *)
Lemma class_level_cache_write_raises :
  (type_getattr 1 "m" Demo.world_same_name).2 = Raise TypeError ∧
  types (type_getattr 1 "m" Demo.world_same_name).1 = types Demo.world_same_name.
Proof. split; vm_compute; reflexivity. Qed.

(** C3, at a failing input.  [m] is a wrapped method declared in the body
    of a class called [A]; a subclass of it, with nothing of its own and no
    [__slots__], is called [A] as well.  Looking [m] up on the subclass finds
    the wrapper of the base class along the MRO and asks it to bind.  The
    name of the subclass is the class named in the function's
    [__qualname__], so the guard of line 145 takes the subclass for the
    declaring class and line 149 is reached; the host refuses the write.
    The access raises [TypeError]: the subclass gets no wrapper at all. *)
Theorem same_named_subclass_access_raises :
  let σ := Demo.world_same_name in
  (PyType.__name__ <$> types σ !! 0) = Some "A" ∧
  (PyType.__name__ <$> types σ !! 1) = Some "A" ∧
  (PyType.__mro__ <$> types σ !! 1) = Some [1; 0] ∧
  (PyType.__dict__ <$> types σ !! 1) = Some ∅ ∧
  (PyType.__dict__ <$> types σ !! 0) = Some {["m" := VWrapper 0]} ∧
  (_name <$> wrappers σ !! 0) = Some (Some "m") ∧
  type_hasattr σ 1 "__slots__" = false ∧
  type_getattr 1 "m" σ = __get__ 0 None 1 σ ∧
  (__get__ 0 None 1 σ).2 = Raise TypeError.
Proof. split_and!; vm_compute; reflexivity. Qed.

(** An inherited wrapped method whose name is one that the metaclass
    serves: looked up on the subclass, line 128 finds the method of [type]
    under that name and returns it; what the subclass gets is no wrapper. *)
Lemma inherited_dunder_access_returns_type_method :
  mro_lookup Demo.world_dunder 1 "__call__" = Some (VWrapper 0) ∧
  type_getattr 1 "__call__" Demo.world_dunder =
    (Demo.world_dunder,
     Return (VCallable (Method (Demo.builtin "__call__") (RType 1)))).
Proof. split; vm_compute; reflexivity. Qed.

(** ** The theorems at work *)

Lemma init_identity_fields_witness :
  ∃ w, __init__ (Partial 7 (Function Demo.compute) [VInt 1] []) None true = Return w ∧
       __name__ w = "partial(compute)" ∧
       __qualname__ w = "partial(compute)" ∧
       __module__ w = "app".
Proof.
  destruct (init_identity_fields (Partial 7 (Function Demo.compute) [VInt 1] [])
              None true Demo.compute
              {| parameters := []; return_annotation := None |} 0)
    as (w & Hw & _ & _ & Hm & _ & Hn & Hq).
  - reflexivity.
  - reflexivity.
  - reflexivity.
  - intros _. exists 1. reflexivity.
  - exists w. split; [exact Hw|]. split; [exact Hn|]. split; [exact Hq|exact Hm].
Defined.

Lemma return_strategy_witness :
  ∃ w validator,
    __init__ (Function Demo.fetch) None true = Return w ∧
    __return_pydantic_validator__ w = Some (return_val_wrapper validator).
Proof.
  eassert (Hinit : __init__ (Function Demo.fetch) None true = Return _)
    by (vm_compute; reflexivity).
  destruct (return_strategy_fixed_at_construction _ _ _ Hinit) as (validator & Hrv & _).
  eexists _, validator. split; [exact Hinit|exact Hrv].
Defined.

Lemma call_rejects_invalid_arguments_witness :
  ∃ w, __init__ (Function Demo.compute) None false = Return w ∧
       check_call w [VStr "a"] [] = None ∧
       __call__ w [VStr "a"] [] Demo.world = (Demo.world, Raise ValidationError).
Proof.
  eassert (Hinit : __init__ (Function Demo.compute) None false = Return _)
    by (vm_compute; reflexivity).
  match type of Hinit with
  | _ = Return ?w =>
      assert (Hbad : check_call w [VStr "a"] [] = None) by (vm_compute; reflexivity)
  end.
  eexists. split; [exact Hinit|].
  split; [exact Hbad|].
  exact (proj1 (call_rejects_invalid_arguments _ _ _ _ _ _ Demo.world Hinit Hbad)).
Defined.

Lemma call_without_return_validation_witness :
  ∃ w, __init__ (Function Demo.compute) None false = Return w ∧
       __call__ w [VInt 3] [] Demo.world =
         call_callable (Function Demo.compute) [VInt 3] [] Demo.world.
Proof.
  eassert (Hinit : __init__ (Function Demo.compute) None false = Return _)
    by (vm_compute; reflexivity).
  match type of Hinit with
  | _ = Return ?w =>
      assert (Hok : check_call w [VInt 3] [] = Some ([VInt 3], []))
        by (vm_compute; reflexivity)
  end.
  eexists. split; [exact Hinit|].
  exact (proj1 (proj2 (call_without_return_validation _ _ _ _ _ _ _ Demo.world
                         Hinit Hok))).
Defined.

Lemma async_return_validation_witness :
  ∃ w pending,
    __init__ (Function Demo.fetch) None true = Return w ∧
    __call__ w [] [] Demo.world = (Demo.world, Return (VCoroutine pending)) ∧
    (await pending Demo.world).2 = Raise ValidationError ∧
    length (invocations (await pending Demo.world).1) = 1.
Proof.
  eassert (Hinit : __init__ (Function Demo.fetch) None true = Return _)
    by (vm_compute; reflexivity).
  match type of Hinit with
  | _ = Return ?w =>
      assert (Hok : check_call w [] [] = Some ([], [])) by (vm_compute; reflexivity)
  end.
  destruct (async_return_validation_deferred (Function Demo.fetch) None _ [] [] [] []
              eq_refl Hinit Hok)
    as (validator & g & gargs & gkwargs & Hrv & _ & _ & _ & Hcall & Hawait).
  cbv zeta in Hcall, Hawait.
  pose proof (Hcall Demo.world) as Hc. vm_compute in Hc.
  injection Hc as Hv Hg Ha Hk. subst validator g gargs gkwargs.
  eexists _, _. split; [exact Hinit|]. split; [apply Hcall|].
  rewrite Hawait. split; vm_compute; reflexivity.
Defined.

Lemma eq_hash_agree_witness :
  ∃ w, __init__ (Function Demo.compute) None false = Return w ∧
       __eq__ w (as_object w) = Return true ∧
       __hash__ w = 1%Z.
Proof.
  eassert (Hinit : __init__ (Function Demo.compute) None false = Return _)
    by (vm_compute; reflexivity).
  match type of Hinit with
  | _ = Return ?w => destruct (eq_hash_agree w w) as (_ & _ & Hh & Hsame & _)
  end.
  eexists. split; [exact Hinit|].
  split; [exact (proj1 (Hsame _ _ _ Hinit Hinit))|].
  rewrite Hh. reflexivity.
Defined.

Lemma eq_non_wrapper_raises_witness :
  ∃ w, __init__ (Function Demo.compute) None false = Return w ∧
       __eq__ w {| attr_raw_function := None;
                   attr__config := None;
                   attr__validate_return := None |} = Raise AttributeError.
Proof.
  eassert (Hinit : __init__ (Function Demo.compute) None false = Return _)
    by (vm_compute; reflexivity).
  eexists. split; [exact Hinit|].
  apply eq_non_wrapper_raises. reflexivity.
Defined.


Lemma inherited_access_witness :
  (type_getattr 1 "m" Demo.world).2 = Return (VWrapper 1) ∧
  (instance_getattr 1 "m" Demo.world).2 = Return (VWrapper 1).
Proof.
  eassert (Hw : wrappers Demo.world !! 0 = Some _) by (vm_compute; reflexivity).
  eassert (Ht : types Demo.world !! 1 = Some _) by (vm_compute; reflexivity).
  assert (Hmro : mro_lookup Demo.world 1 "m" = Some (VWrapper 0))
    by (vm_compute; reflexivity).
  assert (Hm : metaclass_attribute 1 "m" = None) by (vm_compute; reflexivity).
  split.
  - destruct (inherited_access_binds_afresh 0 None 1 Demo.world _ "m" _
                Hw eq_refl Ht eq_refl Hm)
      as (_ & Hret & Hlookup).
    destruct (Hlookup Hmro) as (-> & _).
    erewrite Hret; [reflexivity|reflexivity|vm_compute; reflexivity|].
    right. intros q [= <-]. vm_compute. discriminate.
  - destruct (inherited_access_binds_afresh 0 (Some 1) 1 Demo.world _ "m" _
                Hw eq_refl Ht eq_refl Hm)
      as (_ & Hret & Hlookup).
    destruct (Hlookup Hmro) as (_ & Hinst).
    eassert (Hi : instances Demo.world !! 1 = Some _) by (vm_compute; reflexivity).
    rewrite (Hinst 1 _ Hi eq_refl eq_refl).
    erewrite Hret; [reflexivity|reflexivity|vm_compute; reflexivity|].
    rewrite Hi. eauto.
Defined.

(** * Further properties *)

(** ** Construction *)

Section ConstructionOutcomes.
Context `{Externals}.

(** X1.  Construction lets the failures of its first steps through, the
    earliest first: what [inspect.signature] raises; failing that, what
    reading the identity attributes raises; failing that, what generating
    the arguments schema raises.  And a wrapper is returned only if the
    signature, the identity attributes and the arguments schema were had
    and, with [validate_return] on, the return schema as well. *)
Theorem init_propagates_early_failures (f : callable) (config : Config)
    (validate_return : bool) :
  (∀ e, inspect_signature f = Raise e →
        __init__ f config validate_return = Raise e) ∧
  (∀ sig e, inspect_signature f = Return sig →
            resolve_identity f = Raise e →
            __init__ f config validate_return = Raise e) ∧
  (∀ sig i e, inspect_signature f = Return sig →
              resolve_identity f = Return i →
              generate_arguments_schema config (add_module_globals f) f = Raise e →
              __init__ f config validate_return = Raise e) ∧
  (∀ w, __init__ f config validate_return = Return w →
        ∃ sig i a,
          inspect_signature f = Return sig ∧
          resolve_identity f = Return i ∧
          generate_arguments_schema config (add_module_globals f) f = Return a ∧
          (validate_return = true →
           ∃ b, generate_type_schema config (add_module_globals f)
                  (return_type_of sig) = Return b)).
Proof.
  split_and!.
  - intros e He. unfold __init__. by rewrite He.
  - intros sig e Hs He. unfold __init__. by rewrite Hs, He.
  - intros sig i e Hs Hi He. unfold __init__, generate_schema_callable.
    by rewrite Hs, Hi, He.
  - intros w Hinit.
    apply init_inv in Hinit as (sig & i & a & rv & Hs & Hi & Ha & Hrv & _).
    exists sig, i, a. split_and!; auto.
    intros ->. unfold build_return_validation, generate_schema_type in Hrv.
    destruct (generate_type_schema _ _ _) as [b|e]; [eauto|discriminate].
Qed.

End ConstructionOutcomes.

(** ** Calling *)

Section CallingOutcomes.
Context `{Externals}.

(** Calling a callable that is not a coroutine function runs the body of
    the underlying function, on the receiver and the bound arguments
    followed by the arguments of the call. *)
Lemma call_plain_function c :
  iscoroutinefunction c = false →
  ∀ args kwargs, ∃ g gargs gkwargs,
    call_callable c args kwargs = execute g gargs gkwargs.
Proof.
  induction c as [f|f s|i func IH pargs keywords]; simpl; intros Hco args kwargs.
  - exists f, args, kwargs. unfold call_function. by rewrite Hco.
  - exists f, (receiver_value s :: args), kwargs. unfold call_function. by rewrite Hco.
  - apply IH. exact Hco.
Qed.

(** X2.  For a callable that is not a coroutine function, wrapped with
    [validate_return] on, a call with accepted arguments runs the body and
    then hands its result to [validator.validate_python]: a valid result is
    returned as coerced, an invalid one raises [ValidationError], and an
    exception of the body goes through.  In all three cases the run of the
    body stays in the log: nothing is rolled back. *)
Theorem sync_return_validation (f : callable) (config : Config)
    (w : ValidateCallWrapper) (args args' : list value)
    (kwargs kwargs' : list (string * value)) :
  iscoroutinefunction f = false →
  __init__ f config true = Return w →
  check_call w args kwargs = Some (args', kwargs') →
  ∃ validator g gargs gkwargs,
    __return_pydantic_validator__ w = Some (validate_python_of validator) ∧
    call_callable f args' kwargs' = execute g gargs gkwargs ∧
    ∀ σ, __call__ w args kwargs σ =
         let σ' := log_invocation g gargs gkwargs σ in
         match run_body g gargs gkwargs with
         | Return r =>
             match check_return validator r with
             | Some r' => (σ', Return r')
             | None => (σ', Raise ValidationError)
             end
         | Raise e => (σ', Raise e)
         end.
Proof.
  intros Hco Hinit Hok.
  destruct (call_plain_function f Hco args' kwargs') as (g & gargs & gkwargs & Hcallf).
  pose proof (validate_arguments_of_init _ _ _ _ args kwargs Hinit) as Hval.
  rewrite Hok, Hcallf in Hval.
  apply init_inv in Hinit as (sig & i & a & rv & _ & _ & _ & Hrv & ->).
  unfold build_return_validation, generate_schema_type in Hrv. result_inv. subst.
  rewrite Hco in *. simpl in *.
  eexists _, g, gargs, gkwargs. split; [reflexivity|]. split; [exact Hcallf|].
  intros σ. unfold __call__, bind. simpl. rewrite Hval.
  unfold execute. simpl.
  destruct (run_body g gargs gkwargs) as [r|e]; [|reflexivity].
  unfold validate_python, check_return. simpl.
  destruct (check_value _ _ r); reflexivity.
Qed.

End CallingOutcomes.

(** ** Equality, hashing and printing *)

Lemma callable_eq_sym a b : callable_eq a b = callable_eq b a.
Proof.
  destruct a, b; simpl; try reflexivity.
  - apply bool_decide_ext. naive_solver.
  - f_equal; apply bool_decide_ext; naive_solver.
  - apply bool_decide_ext. naive_solver.
Qed.

Lemma callable_eq_trans a b c :
  callable_eq a b = true → callable_eq b c = true → callable_eq a c = true.
Proof.
  destruct a, b, c; simpl; try discriminate.
  - intros ?%bool_decide_eq_true ?%bool_decide_eq_true.
    apply bool_decide_eq_true_2. congruence.
  - intros [?%bool_decide_eq_true ?%bool_decide_eq_true]%andb_prop
           [?%bool_decide_eq_true ?%bool_decide_eq_true]%andb_prop.
    apply andb_true_intro. split; apply bool_decide_eq_true_2; congruence.
  - intros ?%bool_decide_eq_true ?%bool_decide_eq_true.
    apply bool_decide_eq_true_2. congruence.
Qed.

Lemma config_value_eq_sym a b : config_value_eq a b = config_value_eq b a.
Proof. destruct a, b; simpl; try reflexivity; apply bool_decide_ext; naive_solver. Qed.

Lemma config_value_eq_trans a b c :
  config_value_eq a b = true → config_value_eq b c = true → config_value_eq a c = true.
Proof.
  destruct a, b, c; simpl; try discriminate;
    intros ?%bool_decide_eq_true ?%bool_decide_eq_true;
    apply bool_decide_eq_true_2; subst; try congruence.
  all: match goal with
       | Hb : Z.b2z _ = Z.b2z _ |- _ => by destruct b, b0, b1
       | _ => idtac
       end.
  all: by repeat match goal with b : bool |- _ => destruct b end.
Qed.

Lemma config_eq_sym a b : config_eq a b = config_eq b a.
Proof.
  destruct a as [d|], b as [e|]; simpl; try reflexivity.
  apply bool_decide_ext. unfold map_relation.
  split; intros Hrel k; specialize (Hrel k);
    destruct (d !! k), (e !! k); simpl in *; try done;
    by rewrite config_value_eq_sym.
Qed.

Lemma config_eq_trans a b c :
  config_eq a b = true → config_eq b c = true → config_eq a c = true.
Proof.
  destruct a as [d|], b as [e|], c as [g|]; simpl; try discriminate; [|done].
  intros Hde%bool_decide_eq_true Heg%bool_decide_eq_true.
  apply bool_decide_eq_true_2. unfold map_relation in *. intros k.
  specialize (Hde k). specialize (Heg k).
  destruct (d !! k), (e !! k), (g !! k); simpl in *; try done.
  by eapply config_value_eq_trans.
Qed.

Section EqualityLaws.
Context `{Externals}.

(** X3.  [__eq__] raises only [AttributeError], and exactly when the
    attribute it is about to read is missing: [raw_function], or [_config]
    once the raw callables have compared equal, or [_validate_return] once
    the configs have compared equal too.  An attribute behind a comparison
    that came out false is never read. *)
Theorem eq_raises_iff (w : ValidateCallWrapper) (o : PyObject) (e : exn) :
  __eq__ w o = Raise e ↔
    e = AttributeError ∧
    (attr_raw_function o = None ∨
     ∃ r, attr_raw_function o = Some r ∧
          callable_eq (raw_function w) r = true ∧
          (attr__config o = None ∨
           ∃ c, attr__config o = Some c ∧
                config_eq (_config w) c = true ∧
                attr__validate_return o = None)).
Proof.
  unfold __eq__. destruct o as [[r|] oc ov]; simpl.
  2: { split; [intros [= <-]; auto|intros [-> _]; done]. }
  destruct (callable_eq (raw_function w) r) eqn:Hr; simpl.
  2: { split; [done|]. intros [_ [[=]|(r' & [= <-] & Hr' & _)]]. congruence. }
  destruct oc as [c|]; simpl.
  2: { split; [intros [= <-]; eauto 10|intros [-> _]; done]. }
  destruct (config_eq (_config w) c) eqn:Hc; simpl.
  2: { split; [done|].
       intros [_ [[=]|(r' & _ & _ & [[=]|(c' & [= <-] & Hc' & _)])]]. congruence. }
  destruct ov as [v|]; simpl.
  - split; [done|].
    intros [_ [[=]|(r' & _ & _ & [[=]|(c' & _ & _ & [=])])]].
  - split; [intros [= <-]; eauto 10|intros [-> _]; done].
Qed.

(** X4.  Between wrappers [==] is an equivalence: every wrapper equals
    itself, the two orders of the operands agree, and equality carries
    over a common third wrapper. *)
Theorem eq_is_equivalence (w1 w2 w3 : ValidateCallWrapper) :
  __eq__ w1 (as_object w1) = Return true ∧
  __eq__ w1 (as_object w2) = __eq__ w2 (as_object w1) ∧
  (__eq__ w1 (as_object w2) = Return true →
   __eq__ w2 (as_object w3) = Return true →
   __eq__ w1 (as_object w3) = Return true).
Proof.
  rewrite !eq_wrappers. split_and!.
  - rewrite callable_eq_refl, config_eq_refl. simpl. by rewrite bool_decide_eq_true_2.
  - rewrite (callable_eq_sym (raw_function w1)), (config_eq_sym (_config w1)).
    do 2 f_equal. apply bool_decide_ext. naive_solver.
  - intros [= H12] [= H23]. f_equal.
    apply andb_prop in H12 as [H12 V12]. apply andb_prop in H12 as [F12 C12].
    apply andb_prop in H23 as [H23 V23]. apply andb_prop in H23 as [F23 C23].
    apply bool_decide_eq_true in V12, V23.
    rewrite (callable_eq_trans _ _ _ F12 F23), (config_eq_trans _ _ _ C12 C23). simpl.
    apply bool_decide_eq_true_2. congruence.
Qed.

(** X5.  Wrappers that compare equal have the same hash, whatever their
    configs and flags: a wrapper can be a dictionary key. *)
Theorem equal_wrappers_hash_alike (w1 w2 : ValidateCallWrapper) :
  __eq__ w1 (as_object w2) = Return true →
  __hash__ w1 = __hash__ w2.
Proof.
  rewrite eq_wrappers. intros [= Hb].
  apply andb_prop in Hb as [Hb _]. apply andb_prop in Hb as [Hf _].
  unfold __hash__. by apply hash_callable_proper.
Qed.

End EqualityLaws.

Lemma append_inj_l (p a b : string) : p +:+ a = p +:+ b → a = b.
Proof. induction p as [|c p IH]; simpl; [done|]. intros [= Heq]. auto. Qed.

Lemma append_inj_r (a b : string) (c : ascii) :
  a +:+ String c EmptyString = b +:+ String c EmptyString → a = b.
Proof.
  revert b. induction a as [|x a IH]; intros [|y b]; simpl; try done.
  - intros [= -> Hb]. destruct b; discriminate.
  - intros [= -> Ha]. destruct a; discriminate.
  - intros [= -> Heq]. f_equal. auto.
Qed.

(** X6.  The printed form of a wrapper shows its raw callable and nothing
    else: two wrappers print alike exactly when their raw callables print
    alike, so wrappers that differ in config or in [validate_return] only,
    and that [==] tells apart, print the same. *)
Theorem repr_shows_raw_function_only (str_callable : callable → string)
    (w1 w2 : ValidateCallWrapper) :
  __repr__ str_callable w1 = __repr__ str_callable w2 ↔
  str_callable (raw_function w1) = str_callable (raw_function w2).
Proof.
  unfold __repr__. split; [|by intros ->].
  intros Heq. apply append_inj_l in Heq. by apply append_inj_r in Heq.
Qed.

(** The head of a string before its first dot. *)
Lemma split_dot_head_no_dot s : has_dot (split_dot_head s) = false.
Proof.
  induction s as [|c s IH]; simpl; [done|].
  destruct (Ascii.eqb c ".") eqn:Hc; simpl; [done|]. by rewrite Hc.
Qed.

(** X7.  [qualname.split('.')[0]]: the part before the first dot.  For
    [head + "." + rest] with no dot in [head] it is [head]; a string with no
    dot is returned whole; the result never has a dot in it. *)
Theorem split_dot_head_spec (head rest s : string) :
  (has_dot head = false → split_dot_head (head +:+ "." +:+ rest) = head) ∧
  (has_dot s = false → split_dot_head s = s) ∧
  has_dot (split_dot_head s) = false ∧
  split_dot_head (split_dot_head s) = split_dot_head s.
Proof.
  assert (Hwhole : ∀ x, has_dot x = false → split_dot_head x = x).
  { induction x as [|c x IH]; simpl; [done|].
    intros [Hc Hx]%orb_false_elim. rewrite Hc. f_equal. auto. }
  split_and!.
  - induction head as [|c h IH]; simpl; [done|].
    intros [Hc Hh]%orb_false_elim. rewrite Hc. f_equal. auto.
  - apply Hwhole.
  - apply split_dot_head_no_dot.
  - apply Hwhole, split_dot_head_no_dot.
Qed.

(** ** Rebinding *)

Lemma world_eq σ σ' :
  wrappers σ' = wrappers σ → types σ' = types σ →
  instances σ' = instances σ → invocations σ' = invocations σ → σ' = σ.
Proof. destruct σ, σ'; simpl; intros; by subst. Qed.

Section RebindingOutcomes.
Context `{Externals}.

(** What a rebinding that returns has done, in full. *)
Lemma rebind_returns_inv self obj objtype σ σ' v :
  rebind self obj objtype σ = (σ', Return v) →
  ∃ w bound wnew,
    wrappers σ !! self = Some w ∧
    descr_get (raw_function w) obj objtype = Return bound ∧
    __init__ bound (_config w) (_validate_return w) = Return wnew ∧
    v = VWrapper (length (wrappers σ)) ∧
    σ' = set_wrappers (λ ws, ws ++ [wnew]) σ.
Proof.
  intros Hout.
  pose proof (rebind_spec self obj objtype σ) as (Hty & Hin & Hiv & Hws & Hv).
  rewrite Hout in Hty, Hin, Hiv, Hws, Hv. simpl in *.
  destruct (Hv v eq_refl) as (-> & Hne).
  destruct Hws as [?|(w & bound & wnew & Hw & Hd & Hi & Hσ')]; [done|].
  exists w, bound, wnew. split_and!; auto.
  by apply world_eq.
Qed.

(** X8.  A class-level access through a class that holds an entry of its
    own under the name the wrapper knows returns that entry as it is,
    builds no wrapper and leaves the store untouched.  For the class that
    declares the method the entry is the wrapper itself: [A.m] is the
    unbound wrapper. *)
Theorem class_access_returns_own_entry (self c : nat) (σ : World)
    (w : ValidateCallWrapper) (name : string) (t : PyType.t) (v : value) :
  wrappers σ !! self = Some w →
  _name w = Some name →
  types σ !! c = Some t →
  PyType.__dict__ t !! name = Some v →
  __get__ self None c σ = (σ, Return v) ∧
  (v = VWrapper self →
   (∃ rest, PyType.__mro__ t = c :: rest) →
   type_getattr c name σ = (σ, Return (VWrapper self))).
Proof.
  intros Hw Hn Ht Hv.
  assert (Hget : __get__ self None c σ = (σ, Return v)).
  { unfold __get__, class_level_shortcut, bind, load, type_own_attribute, ret.
    rewrite Hw. simpl. rewrite Hn. simpl. rewrite Ht, Hv. reflexivity. }
  split; [exact Hget|].
  intros -> [rest Hmro]. unfold type_getattr, mro_lookup.
  rewrite Ht. simpl. rewrite Hmro. simpl. rewrite Ht. simpl. rewrite Hv.
  exact Hget.
Qed.

(** X9.  A class-level access on a wrapper that has not been told its name
    takes the [__name__] of the raw function for it, and keeps it.  Line
    128 then looks the class up under that name, which need not be the
    name the wrapper was reached by: an entry of the class itself is
    returned as it is; failing that, what the metaclass serves under the
    name is returned; and only when neither exists does rebinding go on,
    from the store in which the name is set. *)
Theorem unnamed_class_access_uses_function_name (self c : nat) (σ : World)
    (w : ValidateCallWrapper) (n : string) (t : PyType.t) :
  wrappers σ !! self = Some w →
  _name w = None →
  Attr.__name__ (raw_function w) = Return n →
  types σ !! c = Some t →
  let σ1 := set_wrappers (<[self := with_name w (Some n)]>) σ in
  wrappers σ1 !! self = Some (with_name w (Some n)) ∧
  (∀ v, PyType.__dict__ t !! n = Some v → __get__ self None c σ = (σ1, Return v)) ∧
  (∀ v, PyType.__dict__ t !! n = None →
        metaclass_attribute c n = Some v →
        __get__ self None c σ = (σ1, Return v)) ∧
  (PyType.__dict__ t !! n = None →
   metaclass_attribute c n = None →
   __get__ self None c σ = rebind self None c σ1).
Proof.
  intros Hw Hn Ha Ht σ1.
  assert (Hs : class_level_shortcut self None c σ =
               (σ1, Return (match PyType.__dict__ t !! n with
                            | Some v => Some v
                            | None => metaclass_attribute c n
                            end))).
  { unfold class_level_shortcut, bind, load, lift, store_name, type_own_attribute, ret.
    rewrite Hw. simpl. rewrite Hn. simpl. rewrite Ha. simpl. rewrite Hw. simpl.
    rewrite Ht. reflexivity. }
  split_and!.
  - simpl. apply list_lookup_insert_eq. by eapply lookup_lt_Some.
  - intros v Hv. unfold __get__, bind. rewrite Hs, Hv. reflexivity.
  - intros v Hv Hm. unfold __get__, bind. rewrite Hs, Hv, Hm. reflexivity.
  - intros Hv Hm. unfold __get__, bind. rewrite Hs, Hv, Hm. reflexivity.
Qed.

(** X10.  [__set_name__] overwrites: told two names in a row, as when a
    class body binds the same wrapper twice, the wrapper ends up as if told
    the second name only; and the name it was told is the one it holds
    afterwards, every other field being as before. *)
Theorem set_name_last_wins (self owner owner' : nat) (n1 n2 : string) (σ : World) :
  (let* _ := __set_name__ self owner n1 in __set_name__ self owner' n2) σ
    = __set_name__ self owner' n2 σ ∧
  (∀ w, wrappers σ !! self = Some w →
        wrappers (__set_name__ self owner n1 σ).1 !! self = Some (with_name w (Some n1)) ∧
        (__set_name__ self owner n1 σ).2 = Return tt).
Proof.
  unfold __set_name__, store_name, bind.
  destruct (wrappers σ !! self) as [w|] eqn:Hw; simpl.
  - pose proof (lookup_lt_Some _ _ _ Hw) as Hlt.
    rewrite list_lookup_insert_eq by done. split.
    + f_equal. unfold set_wrappers. simpl. f_equal. apply list_insert_insert_eq.
    + intros w' [= <-]. done.
  - split; [reflexivity|]. intros w' [=].
Qed.

(** X11.  What an access through an instance returns is a new wrapper
    around the function of the raw callable bound to that instance: a raw
    function is bound to it, and a raw bound method is bound anew to it,
    its former receiver dropped.  The new wrapper carries the config and
    the [validate_return] flag of the wrapper it came from and the identity
    fields of the function, and it has not been told a name. *)
Theorem instance_access_binds (self o objtype : nat) (σ σ' : World) (v : value) :
  __get__ self (Some o) objtype σ = (σ', Return v) →
  ∃ w f wnew,
    wrappers σ !! self = Some w ∧
    Attr.function_of (raw_function w) = Return f ∧
    v = VWrapper (length (wrappers σ)) ∧
    wrappers σ' = wrappers σ ++ [wnew] ∧
    raw_function wnew = Method f (RInst o) ∧
    _config wnew = _config w ∧
    _validate_return wnew = _validate_return w ∧
    __name__ wnew = PyFunction.__name__ f ∧
    __qualname__ wnew = PyFunction.__qualname__ f ∧
    _name wnew = None.
Proof.
  unfold __get__, bind. rewrite shortcut_instance. intros Hout.
  apply rebind_returns_inv in Hout as (w & bound & wnew & Hw & Hd & Hi & -> & ->).
  apply init_inv in Hi as (sig & i & a & rv & _ & Hid & _ & _ & ->).
  destruct (raw_function w) as [g|g s|? ? ? ?] eqn:Hraw; simpl in Hd; [| |discriminate].
  - injection Hd as <-. simpl in Hid. injection Hid as <-.
    eexists w, g, _. rewrite Hraw. simpl. split_and!; eauto.
  - injection Hd as <-. simpl in Hid. injection Hid as <-.
    eexists w, g, _. rewrite Hraw. simpl. split_and!; eauto.
Qed.

(** X12.  Two accesses in a row through the same instance return two
    different wrapper objects that compare equal, hash alike and behave
    alike when called. *)
Theorem repeated_instance_access (self o objtype : nat) (σ σ1 σ2 : World)
    (v1 v2 : value) :
  __get__ self (Some o) objtype σ = (σ1, Return v1) →
  __get__ self (Some o) objtype σ1 = (σ2, Return v2) →
  ∃ r1 r2 w1 w2,
    v1 = VWrapper r1 ∧ v2 = VWrapper r2 ∧ r1 ≠ r2 ∧
    wrappers σ2 !! r1 = Some w1 ∧
    wrappers σ2 !! r2 = Some w2 ∧
    __eq__ w1 (as_object w2) = Return true ∧
    __hash__ w1 = __hash__ w2 ∧
    __call__ w1 = __call__ w2.
Proof.
  unfold __get__, bind. rewrite !shortcut_instance. intros Hout1 Hout2.
  apply rebind_returns_inv in Hout1 as (w & bound & wnew & Hw & Hd & Hi & -> & ->).
  apply rebind_returns_inv in Hout2 as (w' & bound' & wnew' & Hw' & Hd' & Hi' & -> & ->).
  simpl in *.
  pose proof (lookup_lt_Some _ _ _ Hw) as Hlt.
  rewrite lookup_app_l in Hw' by done.
  rewrite Hw in Hw'. injection Hw' as <-.
  rewrite Hd in Hd'. injection Hd' as <-.
  rewrite Hi in Hi'. injection Hi' as <-.
  exists (length (wrappers σ)), (length (wrappers σ ++ [wnew])), wnew, wnew.
  split_and!; auto.
  - rewrite length_app. simpl. lia.
  - rewrite lookup_app_l by (rewrite length_app; simpl; lia).
    rewrite lookup_app_r by lia. by rewrite Nat.sub_diag.
  - rewrite lookup_app_r by lia. by rewrite Nat.sub_diag.
  - rewrite eq_wrappers, callable_eq_refl, config_eq_refl. simpl.
    by rewrite bool_decide_eq_true_2.
Qed.

(** X13.  The wrapper that rebinding makes of a wrapped function compares
    equal to the wrapper it came from when there is no instance, the
    function binding to itself, and unequal when there is one, a bound
    method being no function. *)
Theorem rebound_wrapper_equality (self : nat) (obj : option nat) (objtype : nat)
    (σ σ' : World) (v : value) (w : ValidateCallWrapper) (f : PyFunction.t) :
  wrappers σ !! self = Some w →
  raw_function w = Function f →
  rebind self obj objtype σ = (σ', Return v) →
  ∃ wnew,
    v = VWrapper (length (wrappers σ)) ∧
    wrappers σ' !! length (wrappers σ) = Some wnew ∧
    __eq__ wnew (as_object w) = Return (match obj with Some _ => false | None => true end) ∧
    __eq__ w (as_object wnew) = Return (match obj with Some _ => false | None => true end).
Proof.
  intros Hw Hraw Hout.
  apply rebind_returns_inv in Hout as (w' & bound & wnew & Hw' & Hd & Hi & -> & ->).
  rewrite Hw in Hw'. injection Hw' as <-.
  apply init_raw_function in Hi as (Hf & Hc & Hv & _).
  exists wnew. simpl. split; [done|]. split.
  { rewrite lookup_app_r by lia. by rewrite Nat.sub_diag. }
  rewrite !eq_wrappers, Hf, Hc, Hv, Hraw, config_eq_refl. rewrite Hraw in Hd.
  destruct obj as [o|]; simpl in Hd; injection Hd as <-; simpl.
  - done.
  - rewrite !bool_decide_eq_true_2 by done. done.
Qed.

(** X14.  An attribute lookup on a class or on an instance, whatever it
    finds, runs no wrapped body, writes to no namespace of a class or an
    instance, and adds one wrapper to the store at most. *)
Theorem lookup_runs_and_stores_nothing (x : nat) (name : string) (σ : World) :
  let on_type := (type_getattr x name σ).1 in
  let on_instance := (instance_getattr x name σ).1 in
  (invocations on_type = invocations σ ∧ types on_type = types σ ∧
   instances on_type = instances σ ∧
   length (wrappers σ) ≤ length (wrappers on_type) ≤ S (length (wrappers σ))) ∧
  (invocations on_instance = invocations σ ∧ types on_instance = types σ ∧
   instances on_instance = instances σ ∧
   length (wrappers σ) ≤ length (wrappers on_instance) ≤ S (length (wrappers σ))).
Proof.
  assert (Hget : ∀ self obj c,
    let σ' := (__get__ self obj c σ).1 in
    invocations σ' = invocations σ ∧ types σ' = types σ ∧ instances σ' = instances σ ∧
    length (wrappers σ) ≤ length (wrappers σ') ≤ S (length (wrappers σ))).
  { intros self obj c. simpl.
    destruct (get_never_writes_attributes self obj c σ) as (Ht & Hi & Hv).
    split_and!; auto.
    all: unfold __get__, bind.
    all: pose proof (shortcut_spec self obj c σ) as (_ & _ & _ & Hws & _).
    all: destruct (class_level_shortcut self obj c σ) as [σ1 [[v|]|e]]; simpl in *.
    all: assert (Hlen : length (wrappers σ1) = length (wrappers σ))
           by (destruct Hws as [->|(? & ? & _ & _ & _ & _ & ->)];
               [done|apply length_insert]).
    all: try lia.
    all: pose proof (rebind_spec self obj c σ1) as (_ & _ & _ & Hws2 & _).
    all: destruct (rebind self obj c σ1) as [σ2 out2]; simpl in *.
    all: destruct Hws2 as [->|(? & ? & ? & _ & _ & _ & ->)];
           rewrite ?length_app; simpl; lia. }
  split.
  - unfold type_getattr.
    destruct (mro_lookup σ x name) as [[]|]; simpl; try (split_and!; auto; lia).
    + apply Hget.
    + destruct (metaclass_attribute x name); simpl; split_and!; auto; lia.
  - unfold instance_getattr.
    destruct (instances σ !! x) as [i|]; simpl; [|split_and!; auto; lia].
    destruct (PyInstance.__dict__ i !! name); simpl; [split_and!; auto; lia|].
    destruct (mro_lookup σ _ name) as [[| | | | | | |[]| |]|]; simpl;
      try (split_and!; auto; lia).
    apply Hget.
Qed.

(** X15.  A wrapper around a [partial] object does not work as a method:
    [partial] objects have no [__get__] and no [__name__].  An access
    through an instance raises [AttributeError]; so does a class-level
    access on a wrapper that has not been told a name; and so does a
    class-level access on one that has, unless line 128 finds something
    under that name, on the class itself or on its metaclass.  No wrapper
    is built and the store is as before. *)
Theorem partial_is_no_descriptor (self o c : nat) (σ : World)
    (w : ValidateCallWrapper) (i : nat) (func : callable) (args : list value)
    (keywords : list (string * value)) :
  wrappers σ !! self = Some w →
  raw_function w = Partial i func args keywords →
  __get__ self (Some o) c σ = (σ, Raise AttributeError) ∧
  (_name w = None → __get__ self None c σ = (σ, Raise AttributeError)) ∧
  (∀ name t, _name w = Some name → types σ !! c = Some t →
             PyType.__dict__ t !! name = None →
             metaclass_attribute c name = None →
             __get__ self None c σ = (σ, Raise AttributeError)).
Proof.
  intros Hw Hraw.
  assert (Hrebind : ∀ obj, rebind self obj c σ = (σ, Raise AttributeError)).
  { intros obj. unfold rebind, bind, load, lift. rewrite Hw. simpl.
    rewrite Hraw. reflexivity. }
  split_and!.
  - unfold __get__, bind. rewrite shortcut_instance. apply Hrebind.
  - intros Hn. unfold __get__, class_level_shortcut, bind, load, lift.
    rewrite Hw. simpl. rewrite Hn, Hraw. reflexivity.
  - intros name t Hn Ht Hd Hm. unfold __get__, bind.
    rewrite (shortcut_inherited _ _ _ _ _ _ Hw Hn Ht Hd Hm). apply Hrebind.
Qed.

(** X18.  Whenever a class-level access gets as far as the cache write of
    line 149, that is with a name that is known, nothing found under it by
    line 128, no [__slots__] and a class called like the one named in the
    function's [__qualname__], it raises [TypeError]: the host refuses
    [object.__setattr__] on a class object.  The wrapper just built for the
    access stays in the store and is handed to no one. *)
Theorem class_level_cache_write_always_raises (self c : nat) (σ : World)
    (w wnew : ValidateCallWrapper) (name q : string) (t : PyType.t)
    (bound : callable) :
  wrappers σ !! self = Some w →
  _name w = Some name →
  types σ !! c = Some t →
  PyType.__dict__ t !! name = None →
  metaclass_attribute c name = None →
  descr_get (raw_function w) None c = Return bound →
  __init__ bound (_config w) (_validate_return w) = Return wnew →
  type_hasattr σ c "__slots__" = false →
  Attr.__qualname__ (raw_function w) = Return q →
  PyType.__name__ t = split_dot_head q →
  __get__ self None c σ = (set_wrappers (λ ws, ws ++ [wnew]) σ, Raise TypeError).
Proof.
  intros Hw Hn Ht Hd Hm Hb Hi Hs Hq Hname.
  unfold __get__, bind. rewrite (shortcut_inherited _ _ _ _ _ _ Hw Hn Ht Hd Hm).
  unfold rebind, bind, load, lift, new_wrapper, gets, calling_class_of,
    object_setattr_type, raise, ret.
  rewrite Hw. simpl. rewrite Hb. simpl. rewrite Hi. simpl. rewrite Ht. simpl.
  rewrite Hq. simpl. rewrite Hn.
  assert (Hg : type_hasattr (set_wrappers (λ ws, ws ++ [wnew]) σ) c "__slots__"
               || bool_decide (PyType.__name__ t ≠ split_dot_head q) = false).
  { unfold type_hasattr, mro_lookup in *. simpl. rewrite Hs. simpl.
    by apply bool_decide_eq_false_2; intros Hne. }
  rewrite Hg. reflexivity.
Qed.

(** X16.  Calling a method through an instance: the wrapper that an access
    through the instance [o] returns, for a wrapped plain function with
    [validate_return] off, validates the arguments of the call alone and
    then runs the function on [o] followed by the coerced arguments. *)
Theorem bound_call_passes_instance (self o objtype : nat) (σ σ' : World) (v : value)
    (w : ValidateCallWrapper) (f : PyFunction.t)
    (args args' : list value) (kwargs kwargs' : list (string * value)) :
  wrappers σ !! self = Some w →
  raw_function w = Function f →
  PyFunction.co_coroutine f = false →
  _validate_return w = false →
  __get__ self (Some o) objtype σ = (σ', Return v) →
  ∃ wnew,
    v = VWrapper (length (wrappers σ)) ∧
    wrappers σ' !! length (wrappers σ) = Some wnew ∧
    (check_call wnew args kwargs = Some (args', kwargs') →
     __call__ wnew args kwargs σ' =
       (log_invocation f (VInst o :: args') kwargs' σ',
        run_body f (VInst o :: args') kwargs')) ∧
    (check_call wnew args kwargs = None →
     __call__ wnew args kwargs σ' = (σ', Raise ValidationError)).
Proof.
  intros Hw Hraw Hco Hvr. unfold __get__, bind. rewrite shortcut_instance. intros Hout.
  apply rebind_returns_inv in Hout as (w' & bound & wnew & Hw' & Hd & Hi & -> & ->).
  rewrite Hw in Hw'. injection Hw' as <-.
  rewrite Hraw in Hd. simpl in Hd. injection Hd as <-. rewrite Hvr in Hi.
  exists wnew. simpl. split; [done|]. split.
  { rewrite lookup_app_r by lia. by rewrite Nat.sub_diag. }
  pose proof (validate_arguments_of_init _ _ _ _ args kwargs Hi) as Hval.
  assert (Hnone : __return_pydantic_validator__ wnew = None).
  { apply init_inv in Hi as (sig & i & a & rv & _ & _ & _ & Hrv & ->).
    simpl in Hrv. injection Hrv as <-. reflexivity. }
  split.
  - intros Hok. unfold __call__, bind. rewrite Hval, Hok, Hnone. simpl.
    unfold call_function. rewrite Hco. unfold execute.
    destruct (run_body f (VInst o :: args') kwargs'); reflexivity.
  - intros Hbad. unfold __call__, bind. rewrite Hval, Hbad. reflexivity.
Qed.

End RebindingOutcomes.


(** ** The further properties at work *)

Lemma sync_return_validation_witness :
  ∃ w, __init__ (Function Demo.compute) None true = Return w ∧
       (__call__ w [] [] Demo.world).2 = Raise ValidationError ∧
       length (invocations (__call__ w [] [] Demo.world).1) = 1.
Proof.
  eassert (Hinit : __init__ (Function Demo.compute) None true = Return _)
    by (vm_compute; reflexivity).
  match type of Hinit with
  | _ = Return ?w =>
      assert (Hok : check_call w [] [] = Some ([], [])) by (vm_compute; reflexivity)
  end.
  destruct (sync_return_validation (Function Demo.compute) None _ [] [] [] []
              eq_refl Hinit Hok)
    as (validator & g & gargs & gkwargs & Hrv & Hrun & Hcall).
  cbv zeta in Hcall.
  injection Hrv as <-.
  assert (Hg : execute Demo.compute [] [] Demo.world = execute g gargs gkwargs Demo.world)
    by (by rewrite <- Hrun).
  vm_compute in Hg. injection Hg as Hk Ha Hf _. subst g gargs gkwargs.
  eexists. split; [exact Hinit|]. rewrite Hcall. split; vm_compute; reflexivity.
Defined.

Lemma equal_wrappers_hash_alike_witness :
  ∃ w, __init__ (Function Demo.compute) None true = Return w ∧
       __eq__ w (as_object w) = Return true ∧
       __hash__ w = __hash__ w.
Proof.
  eassert (Hinit : __init__ (Function Demo.compute) None true = Return _)
    by (vm_compute; reflexivity).
  match type of Hinit with
  | _ = Return ?w =>
      assert (Heq : __eq__ w (as_object w) = Return true) by (vm_compute; reflexivity)
  end.
  eexists. split; [exact Hinit|]. split; [exact Heq|].
  exact (equal_wrappers_hash_alike _ _ Heq).
Defined.

Lemma class_access_returns_own_entry_witness :
  __get__ 0 None 0 Demo.world = (Demo.world, Return (VWrapper 0)) ∧
  type_getattr 0 "m" Demo.world = (Demo.world, Return (VWrapper 0)).
Proof.
  eassert (Hw : wrappers Demo.world !! 0 = Some _) by (vm_compute; reflexivity).
  eassert (Ht : types Demo.world !! 0 = Some _) by (vm_compute; reflexivity).
  destruct (class_access_returns_own_entry 0 0 Demo.world _ "m" _ (VWrapper 0)
              Hw eq_refl Ht eq_refl) as (Hget & Hattr).
  split; [exact Hget|]. apply Hattr; [reflexivity|]. eexists. reflexivity.
Defined.

Lemma unnamed_class_access_witness :
  (type_getattr 0 "m" Demo.world_shadowed).2 = Return (VInt 5) ∧
  (_name <$> wrappers (type_getattr 0 "m" Demo.world_shadowed).1 !! 0)
    = Some (Some "compute").
Proof.
  eassert (Hw : wrappers Demo.world_shadowed !! 0 = Some _) by (vm_compute; reflexivity).
  eassert (Ht : types Demo.world_shadowed !! 0 = Some _) by (vm_compute; reflexivity).
  destruct (unnamed_class_access_uses_function_name 0 0 Demo.world_shadowed _ "compute" _
              Hw eq_refl eq_refl Ht) as (Hname & Hfound & _).
  assert (Hattr : type_getattr 0 "m" Demo.world_shadowed = __get__ 0 None 0 Demo.world_shadowed)
    by reflexivity.
  cbv zeta in Hname.
  rewrite Hattr, (Hfound (VInt 5) eq_refl). cbn [fst snd]. split; [reflexivity|].
  rewrite Hname. reflexivity.
Defined.

Lemma instance_access_binds_witness :
  ∃ σ' wnew,
    __get__ 0 (Some 0) 0 Demo.world = (σ', Return (VWrapper 1)) ∧
    wrappers σ' = wrappers Demo.world ++ [wnew] ∧
    raw_function wnew = Method Demo.A_m (RInst 0) ∧
    _name wnew = None.
Proof.
  eassert (Hout : __get__ 0 (Some 0) 0 Demo.world = (_, Return (VWrapper 1)))
    by (vm_compute; reflexivity).
  destruct (instance_access_binds 0 0 0 Demo.world _ _ Hout)
    as (w & f & wnew & Hw & Hf & _ & Hws & Hraw & _ & _ & _ & _ & Hname).
  vm_compute in Hw. injection Hw as <-.
  simpl in Hf. injection Hf as <-.
  eexists _, wnew. split; [exact Hout|]. split; [exact Hws|]. split; [exact Hraw|exact Hname].
Defined.

Lemma repeated_instance_access_witness :
  ∃ σ1 σ2 r1 r2 w1 w2,
    __get__ 0 (Some 0) 0 Demo.world = (σ1, Return (VWrapper r1)) ∧
    __get__ 0 (Some 0) 0 σ1 = (σ2, Return (VWrapper r2)) ∧
    r1 ≠ r2 ∧
    wrappers σ2 !! r1 = Some w1 ∧ wrappers σ2 !! r2 = Some w2 ∧
    __eq__ w1 (as_object w2) = Return true.
Proof.
  eassert (Hout1 : __get__ 0 (Some 0) 0 Demo.world = (_, Return (VWrapper 1)))
    by (vm_compute; reflexivity).
  match type of Hout1 with
  | _ = (?σ1, _) =>
      eassert (Hout2 : __get__ 0 (Some 0) 0 σ1 = (_, Return (VWrapper 2)))
        by (vm_compute; reflexivity)
  end.
  destruct (repeated_instance_access 0 0 0 Demo.world _ _ _ _ Hout1 Hout2)
    as (r1 & r2 & w1 & w2 & [= <-] & [= <-] & Hne & Hw1 & Hw2 & Heq & _).
  eexists _, _, 1, 2, w1, w2. split; [exact Hout1|]. split; [exact Hout2|]. auto.
Defined.

Lemma rebound_wrapper_equality_witness :
  ∃ σ' wnew w,
    wrappers Demo.world !! 0 = Some w ∧
    rebind 0 (Some 0) 0 Demo.world = (σ', Return (VWrapper 1)) ∧
    wrappers σ' !! 1 = Some wnew ∧
    __eq__ wnew (as_object w) = Return false.
Proof.
  eassert (Hw : wrappers Demo.world !! 0 = Some _) by (vm_compute; reflexivity).
  eassert (Hout : rebind 0 (Some 0) 0 Demo.world = (_, Return (VWrapper 1)))
    by (vm_compute; reflexivity).
  destruct (rebound_wrapper_equality 0 (Some 0) 0 Demo.world _ _ _ Demo.A_m Hw eq_refl Hout)
    as (wnew & _ & Hnew & Heq & _).
  eexists _, wnew, _. split; [exact Hw|]. split; [exact Hout|]. split; [exact Hnew|exact Heq].
Defined.

Lemma partial_is_no_descriptor_witness :
  instance_getattr 0 "p" Demo.world_partial = (Demo.world_partial, Raise AttributeError).
Proof.
  eassert (Hw : wrappers Demo.world_partial !! 0 = Some _) by (vm_compute; reflexivity).
  assert (Hattr : instance_getattr 0 "p" Demo.world_partial
                  = __get__ 0 (Some 0) 0 Demo.world_partial) by reflexivity.
  rewrite Hattr.
  exact (proj1 (partial_is_no_descriptor 0 0 0 Demo.world_partial _ 7
                  (Function Demo.compute) [VInt 1] [] Hw eq_refl)).
Defined.

Lemma bound_call_passes_instance_witness :
  ∃ σ' wnew,
    __get__ 0 (Some 0) 0 Demo.world = (σ', Return (VWrapper 1)) ∧
    wrappers σ' !! 1 = Some wnew ∧
    __call__ wnew [VInt 3] [] σ' =
      (log_invocation Demo.A_m [VInst 0; VInt 3] [] σ',
       run_body Demo.A_m [VInst 0; VInt 3] []).
Proof.
  eassert (Hw : wrappers Demo.world !! 0 = Some _) by (vm_compute; reflexivity).
  eassert (Hout : __get__ 0 (Some 0) 0 Demo.world = (_, Return (VWrapper 1)))
    by (vm_compute; reflexivity).
  destruct (bound_call_passes_instance 0 0 0 Demo.world _ _ _ Demo.A_m
              [VInt 3] [VInt 3] [] [] Hw eq_refl eq_refl eq_refl Hout)
    as (wnew & _ & Hnew & Hcall & _).
  eexists _, wnew. split; [exact Hout|]. split; [exact Hnew|].
  apply Hcall.
  simpl in Hnew. injection Hnew as <-. vm_compute. reflexivity.
Defined.

Lemma class_level_cache_write_witness :
  ∃ σ', __get__ 0 None 1 Demo.world_same_name = (σ', Raise TypeError) ∧
        length (wrappers σ') = 2.
Proof.
  eassert (Hw : wrappers Demo.world_same_name !! 0 = Some _) by (vm_compute; reflexivity).
  eassert (Ht : types Demo.world_same_name !! 1 = Some _) by (vm_compute; reflexivity).
  assert (Hm : metaclass_attribute 1 "m" = None) by (vm_compute; reflexivity).
  eassert (Hi : __init__ (Function Demo.A_m) None false = Return _)
    by (vm_compute; reflexivity).
  assert (Hs : type_hasattr Demo.world_same_name 1 "__slots__" = false)
    by (vm_compute; reflexivity).
  eexists. split.
  - exact (class_level_cache_write_always_raises 0 1 Demo.world_same_name _ _ "m" "A.m" _
             (Function Demo.A_m) Hw eq_refl Ht eq_refl Hm eq_refl Hi Hs eq_refl eq_refl).
  - vm_compute. reflexivity.
Defined.
